(** * A customer-and-service registry: model of [app.py] and its properties

    The four request handlers of [CustomerService] ([add_customer],
    [get_customer], [create_service], [get_customer_services]) are embedded
    as computations in a small state-and-exception monad over the committed
    database and the unit of work of the handler's session.  The two tables
    are lists of rows in insertion (rowid) order. *)

From Stdlib Require Import ZArith List String Ascii Bool Lia.
From Stdlib Require Import DecimalString DecimalZ DecimalPos.
Import ListNotations.

#[local] Open Scope string_scope.
#[local] Open Scope Z_scope.

(** ** Text *)

(** Python [str] values are modelled as [string]; the characters of a
    [string] are the code points below 256, among which the only decimal
    digits (what [\d] and [int] accept) are ["0"] to ["9"]. *)

Definition nl : string := String "010" EmptyString.

Definition is_digit (c : ascii) : bool :=
  ((48 <=? N_of_ascii c) && (N_of_ascii c <=? 57))%N.

Definition digit_val (c : ascii) : Z := Z.of_N (N_of_ascii c) - 48.

Definition digit_char (n : Z) : ascii := ascii_of_N (Z.to_N (n + 48)).

(** [in_range lo hi c]: the character class [[lo-hi]] of digits. *)
Definition in_range (lo hi : Z) (c : ascii) : bool :=
  is_digit c && (lo <=? digit_val c) && (digit_val c <=? hi).

(** [str(n)] for an integer [n]. *)
Definition str_int (n : Z) : string := NilZero.string_of_int (Z.to_int n).

(** Substring test, the Python [needle in hay]. *)
Fixpoint contains (needle hay : string) : bool :=
  prefix needle hay ||
  match hay with
  | EmptyString => false
  | String _ hay' => contains needle hay'
  end.

(** ** Calendar dates: [datetime.date] *)

Record date := mkdate { year : Z; month : Z; day : Z }.

Definition is_leap (y : Z) : bool :=
  (y mod 4 =? 0) && (negb (y mod 100 =? 0) || (y mod 400 =? 0)).

Definition days_in_month (y m : Z) : Z :=
  if m =? 2 then (if is_leap y then 29 else 28)
  else if (m =? 4) || (m =? 6) || (m =? 9) || (m =? 11) then 30
  else 31.

(** The check made by the [date] constructor ([MINYEAR = 1],
    [MAXYEAR = 9999]); it raises [ValueError] when this is false. *)
Definition valid_date (y m d : Z) : bool :=
  (1 <=? y) && (y <=? 9999) && (1 <=? m) && (m <=? 12) &&
  (1 <=? d) && (d <=? days_in_month y m).

(** [str(d)] is [d.isoformat()], that is ["%04d-%02d-%02d"]. *)
Definition pad2 (n : Z) : string :=
  String (digit_char (n / 10 mod 10)) (String (digit_char (n mod 10)) EmptyString).

Definition pad4 (n : Z) : string :=
  String (digit_char (n / 1000 mod 10)) (String (digit_char (n / 100 mod 10)) (pad2 n)).

Definition isoformat (d : date) : string :=
  pad4 (year d) ++ "-" ++ pad2 (month d) ++ "-" ++ pad2 (day d).

(** Comparison of the pairs [(month, day)], as Python compares tuples. *)
Definition pair_lt (a b : Z * Z) : bool :=
  (fst a <? fst b) || ((fst a =? fst b) && (snd a <? snd b)).

(** ** [datetime.strptime(s, '%Y-%m-%d').date()]

    The format compiles to the regular expression
    [(?P<Y>\d\d\d\d)-(?P<m>1[0-2]|0[1-9]|[1-9])-(?P<d>3[0-1]|[1-2]\d|0[1-9]|[1-9]| [1-9])],
    matched at the start of the text with the alternatives tried in order;
    text left over after the match, and field values that are no calendar
    date, raise [ValueError]. *)

Inductive exn := ValueError.

Inductive outcome (A : Type) :=
| Returned (a : A)
| Raised (e : exn).
Arguments Returned {A} a.
Arguments Raised {A} e.

(** The alternatives of the group [m] that match a prefix of [s], in order,
    each with the value [int] gives it and the rest of the text. *)
Definition alts_m (s : string) : list (Z * string) :=
  (match s with
   | String c1 (String c2 r) =>
       if in_range 1 1 c1 && in_range 0 2 c2
       then [(10 + digit_val c2, r)] else []
   | _ => []
   end) ++
  (match s with
   | String c1 (String c2 r) =>
       if in_range 0 0 c1 && in_range 1 9 c2
       then [(digit_val c2, r)] else []
   | _ => []
   end) ++
  (match s with
   | String c1 r => if in_range 1 9 c1 then [(digit_val c1, r)] else []
   | _ => []
   end).

(** The same for the group [d]. *)
Definition alts_d (s : string) : list (Z * string) :=
  (match s with
   | String c1 (String c2 r) =>
       if in_range 3 3 c1 && in_range 0 1 c2
       then [(30 + digit_val c2, r)] else []
   | _ => []
   end) ++
  (match s with
   | String c1 (String c2 r) =>
       if in_range 1 2 c1 && is_digit c2
       then [(10 * digit_val c1 + digit_val c2, r)] else []
   | _ => []
   end) ++
  (match s with
   | String c1 (String c2 r) =>
       if in_range 0 0 c1 && in_range 1 9 c2
       then [(digit_val c2, r)] else []
   | _ => []
   end) ++
  (match s with
   | String c1 r => if in_range 1 9 c1 then [(digit_val c1, r)] else []
   | _ => []
   end) ++
  (match s with
   | String c1 (String c2 r) =>
       if Ascii.eqb c1 " " && in_range 1 9 c2
       then [(digit_val c2, r)] else []
   | _ => []
   end).

(** The group [Y]: exactly four digits. *)
Definition match_Y (s : string) : option (Z * string) :=
  match s with
  | String c1 (String c2 (String c3 (String c4 r))) =>
      if is_digit c1 && is_digit c2 && is_digit c3 && is_digit c4
      then Some (1000 * digit_val c1 + 100 * digit_val c2
                 + 10 * digit_val c3 + digit_val c4, r)
      else None
  | _ => None
  end.

Definition match_dash (s : string) : option string :=
  match s with
  | String c r => if Ascii.eqb c "-" then Some r else None
  | EmptyString => None
  end.

(** First success of a continuation over ordered alternatives: the
    backtracking of the matcher. *)
Fixpoint first_match {A B : Type} (k : A -> option B) (l : list A) : option B :=
  match l with
  | [] => None
  | a :: l' => match k a with Some b => Some b | None => first_match k l' end
  end.

(** The match of the whole expression: the three values and the text that
    remains after the match. *)
Definition format_regex_match (s : string) : option (Z * Z * Z * string) :=
  match match_Y s with
  | None => None
  | Some (y, r1) =>
      match match_dash r1 with
      | None => None
      | Some r2 =>
          first_match
            (fun mr : Z * string =>
               match match_dash (snd mr) with
               | None => None
               | Some r3 =>
                   first_match
                     (fun dr : Z * string => Some (y, fst mr, fst dr, snd dr))
                     (alts_d r3)
               end)
            (alts_m r2)
      end
  end.

Definition strptime (s : string) : outcome date :=
  match format_regex_match s with
  | None => Raised ValueError
  | Some (y, m, d, rest) =>
      match rest with
      | String _ _ => Raised ValueError
      | EmptyString =>
          if valid_date y m d then Returned (mkdate y m d) else Raised ValueError
      end
  end.

(** ** The schema *)

Module Customer.
Record t := mk {
  id : Z;
  name : string;
  family : string;
  father_name : string;
  national_id : string;
  shenasname_id : string;
  birth_date : date;
  address : string;
  services_count : Z
}.

Definition with_services_count (n : Z) (c : t) : t :=
  mk (id c) (name c) (family c) (father_name c) (national_id c)
     (shenasname_id c) (birth_date c) (address c) n.
End Customer.

(** A value held in a column of the store, whose storage classes used here
    are integers and text. *)
Inductive value :=
| Integer (n : Z)
| Text (s : string).

Definition value_eqb (a b : value) : bool :=
  match a, b with
  | Integer m, Integer n => m =? n
  | Text s, Text t => String.eqb s t
  | _, _ => false
  end.

Module Service.
Record t := mk {
  id : Z;
  name : string;
  phone_number : string;
  customer_id : value
}.
End Service.

(** ** Texts as numbers in the store

    The store is SQLite ([DB_URL = 'sqlite:///ShatelMobile.db']).  The
    handlers receive every identifier as text and hand it to the store as
    it is.  A text that is compared with an integer key, or stored in an
    INTEGER column, is read as a number when the whole of it, blanks at
    both ends apart, is a numeric literal: an optional sign, digits with an
    optional point among them, and an optional exponent.  Any other text
    stays a text, and a text never equals an integer. *)

(** The plain integer literals: an optional sign and decimal digits. *)
Definition integer_literal (s : string) : option Z :=
  match s with
  | String c s' =>
      if Ascii.eqb c "+" then option_map Z.of_uint (NilZero.uint_of_string s')
      else if Ascii.eqb c "-"
           then option_map (fun u => - Z.of_uint u) (NilZero.uint_of_string s')
           else option_map Z.of_uint (NilZero.uint_of_string s)
  | EmptyString => None
  end.

(** How the store reads a text: as the integer [k]; as the real number
    [m * 10 ^ e], when the literal has a point or an exponent; or as no
    number at all.  (Keys are 64-bit integers in the store; an integer
    literal beyond that range is a real number there, and equals no key.) *)
Inductive reading :=
| IntegerText (k : Z)
| RealText (m e : Z)
| PlainText.

(** The blanks that may surround a number: space, tab, line feed, vertical
    tab, form feed and carriage return. *)
Definition is_space (c : ascii) : bool :=
  (((9 <=? N_of_ascii c) && (N_of_ascii c <=? 13)) || (N_of_ascii c =? 32))%N.

Fixpoint skip_spaces (s : string) : string :=
  match s with
  | String c r => if is_space c then skip_spaces r else s
  | EmptyString => EmptyString
  end.

Definition only_spaces (s : string) : bool :=
  match skip_spaces s with
  | EmptyString => true
  | String _ _ => false
  end.

Definition sign_prefix (s : string) : Z * string :=
  match s with
  | String c r =>
      if Ascii.eqb c "-" then (-1, r)
      else if Ascii.eqb c "+" then (1, r) else (1, s)
  | EmptyString => (1, EmptyString)
  end.

(** The digits at the start of [s], read after those that gave [acc]: the
    number, how many digits were read, and the rest of the text. *)
Fixpoint digits_prefix (acc : Z) (s : string) : Z * nat * string :=
  match s with
  | String c r =>
      if is_digit c
      then let '(v, n, rest) := digits_prefix (10 * acc + digit_val c) r in
           (v, S n, rest)
      else (acc, O, s)
  | EmptyString => (acc, O, EmptyString)
  end.

(** The text after the sign [sg]: digits, an optional point and digits (one
    digit at least in all), an optional exponent ([e] or [E], an optional
    sign, one digit at least), then blanks only. *)
Definition read_number (sg : Z) (s : string) : reading :=
  let '(ip, ni, s3) := digits_prefix 0 s in
  let '(m, nf, s4, point) :=
    match s3 with
    | String c r =>
        if Ascii.eqb c "."
        then let '(m, nf, r') := digits_prefix ip r in (m, nf, r', true)
        else (ip, O, s3, false)
    | EmptyString => (ip, O, s3, false)
    end in
  if (ni + nf =? 0)%nat then PlainText
  else
    match s4 with
    | String c r =>
        if Ascii.eqb c "e" || Ascii.eqb c "E" then
          let '(esg, r1) := sign_prefix r in
          let '(ev, ne, r2) := digits_prefix 0 r1 in
          if (ne =? 0)%nat then PlainText
          else if only_spaces r2
               then RealText (sg * m) (esg * ev - Z.of_nat nf)
               else PlainText
        else if only_spaces s4
             then (if point then RealText (sg * m) (- Z.of_nat nf)
                   else IntegerText (sg * m))
             else PlainText
    | EmptyString =>
        if point then RealText (sg * m) (- Z.of_nat nf)
        else IntegerText (sg * m)
    end.

Definition read_text (s : string) : reading :=
  let '(sg, s2) := sign_prefix (skip_spaces s) in read_number sg s2.

(** The integer that [m * 10 ^ e] is, when it is one. *)
Definition exact_value (m e : Z) : option Z :=
  if 0 <=? e then Some (m * 10 ^ e)
  else if m mod 10 ^ (- e) =? 0 then Some (m / 10 ^ (- e)) else None.

(** The value of a decimal numeral, read from the left after the digits
    that gave [acc]. *)
Fixpoint uint_value (acc : Z) (d : Decimal.uint) : Z :=
  match d with
  | Decimal.Nil => acc
  | Decimal.D0 d => uint_value (10 * acc + 0) d
  | Decimal.D1 d => uint_value (10 * acc + 1) d
  | Decimal.D2 d => uint_value (10 * acc + 2) d
  | Decimal.D3 d => uint_value (10 * acc + 3) d
  | Decimal.D4 d => uint_value (10 * acc + 4) d
  | Decimal.D5 d => uint_value (10 * acc + 5) d
  | Decimal.D6 d => uint_value (10 * acc + 6) d
  | Decimal.D7 d => uint_value (10 * acc + 7) d
  | Decimal.D8 d => uint_value (10 * acc + 8) d
  | Decimal.D9 d => uint_value (10 * acc + 9) d
  end.

(** * The service over a store *)

Section Store.

(** A real literal [m * 10 ^ e] is turned into a floating-point number by
    the store, which then finds it equal to an integer key or to none.
    Floating-point arithmetic is not modelled: [real_key m e] stands for the
    key that the store finds the literal equal to, and everything below
    holds whatever it is.  ([exact_value] is what it is for short
    literals.) *)
Variable real_key : Z -> Z -> option Z.

(** The integer key that the store reads the text as, if any. *)
Definition text_key (s : string) : option Z :=
  match read_text s with
  | IntegerText k => Some k
  | RealText m e => real_key m e
  | PlainText => None
  end.

(** What an INTEGER column holds for a text: the integer it is read as, or
    the text itself (a real number that is no integer is not told apart
    from a text here: neither equals an integer key). *)
Definition integer_affinity (s : string) : value :=
  match text_key s with
  | Some n => Integer n
  | None => Text s
  end.

(** The committed state: the rows of the two tables in rowid order, and the
    number of transactions committed so far. *)
Record Database := mkDatabase {
  customers : list Customer.t;
  services : list Service.t;
  transactions : nat
}.

Definition empty_db : Database := mkDatabase [] [] 0.

(** The key given to a row inserted without one: one more than the largest
    key of the table, 1 for an empty table. *)
Definition next_id (ids : list Z) : Z := 1 + fold_right Z.max 0 ids.

(** The unit of work of a session: what [session.add] and attribute
    assignment on a loaded object have recorded and [session.commit] will
    write.  A new customer row gets [services_count] from the column default,
    0. *)
Inductive pending :=
| NewCustomer (name family father_name national_id shenasname_id : string)
              (birth_date : date) (address : string)
| NewService (name phone_number customer_id : string)
| SetServicesCount (customer : Z) (n : Z).

Definition flush (p : pending) (db : Database) : Database :=
  match p with
  | NewCustomer n f fa ni sh b a =>
      mkDatabase
        (customers db ++
           [Customer.mk (next_id (map Customer.id (customers db)))
                        n f fa ni sh b a 0])
        (services db) (transactions db)
  | NewService n ph cid =>
      mkDatabase
        (customers db)
        (services db ++
           [Service.mk (next_id (map Service.id (services db)))
                       n ph (integer_affinity cid)])
        (transactions db)
  | SetServicesCount k n =>
      mkDatabase
        (map (fun c => if Customer.id c =? k
                       then Customer.with_services_count n c else c)
             (customers db))
        (services db) (transactions db)
  end.

(** [session.query(Customer).filter_by(id=customer_id).first()] *)
Definition query_customer (db : Database) (customer_id : string)
  : option Customer.t :=
  match integer_affinity customer_id with
  | Integer k => find (fun c => Customer.id c =? k) (customers db)
  | Text _ => None
  end.

(** [customer.services]: the rows of [services] that reference the
    customer. *)
Definition customer_services (db : Database) (c : Customer.t)
  : list Service.t :=
  filter (fun s => value_eqb (Service.customer_id s) (Integer (Customer.id c)))
         (services db).

(** ** The handler monad: state and exceptions *)

Record Ctx := mkCtx {
  database : Database;
  session : list pending
}.

Definition M (A : Type) : Type := Ctx -> outcome A * Ctx.

Definition ret {A : Type} (a : A) : M A := fun w => (Returned a, w).

Definition bind {A B : Type} (m : M A) (k : A -> M B) : M B :=
  fun w =>
    match m w with
    | (Returned a, w') => k a w'
    | (Raised e, w') => (Raised e, w')
    end.

Notation "x <- m ;; k" := (bind m (fun x => k))
  (at level 61, m at next level, right associativity).
Notation "m ;; k" := (bind m (fun _ => k))
  (at level 61, right associativity).

(** An outcome of a library call, raised or passed on. *)
Definition lift {A : Type} (o : outcome A) : M A := fun w => (o, w).

(** [Session()] *)
Definition Session : M unit :=
  fun w => (Returned tt, mkCtx (database w) []).

Definition session_add (p : pending) : M unit :=
  fun w => (Returned tt, mkCtx (database w) (session w ++ [p])).

Definition session_query (customer_id : string) : M (option Customer.t) :=
  fun w => (Returned (query_customer (database w) customer_id), w).

Definition session_services (c : Customer.t) : M (list Service.t) :=
  fun w => (Returned (customer_services (database w) c), w).

(** [session.commit()]: the whole unit of work is written in one
    transaction. *)
Definition session_commit : M unit :=
  fun w =>
    let db := fold_left (fun d p => flush p d) (session w) (database w) in
    (Returned tt,
     mkCtx (mkDatabase (customers db) (services db) (S (transactions db))) []).

(** [session.close()]: what was not committed is dropped. *)
Definition session_close : M unit :=
  fun w => (Returned tt, mkCtx (database w) []).

(** A request: the handler runs on the committed state with a session of
    its own, and leaves the committed state behind. *)
Definition run {A : Type} (h : M A) (db : Database) : outcome A * Database :=
  let (r, w) := h (mkCtx db []) in (r, database w).

(** ** The handlers of [CustomerService] *)

Definition age_rejected : string :=
  "Age must be 18 or older to register as a customer.".
Definition customer_added : string := "Customer added successfully.".
Definition customer_not_found : string := "Customer not found.".
Definition maximum_reached : string :=
  "Maximum number of services reached for this customer.".
Definition service_created : string := "Service created successfully.".

Definition age (today birth : date) : Z :=
  year today - year birth
  - (if pair_lt (month today, day today) (month birth, day birth)
     then 1 else 0).

(** [today] is the value of [datetime.now().date()] at the call. *)
Definition add_customer (today : date)
    (name family father_name national_id shenasname_id birth_date address
       : string) : M string :=
  Session ;;
  birth <- lift (strptime birth_date) ;;
  if age today birth <? 18 then
    session_close ;;
    ret age_rejected
  else
    session_add (NewCustomer name family father_name national_id
                             shenasname_id birth address) ;;
    session_commit ;;
    session_close ;;
    ret customer_added.

Definition format_customer (c : Customer.t) : string :=
  "id: " ++ str_int (Customer.id c) ++ nl ++
  "Name: " ++ Customer.name c ++ nl ++
  "family: " ++ Customer.family c ++ nl ++
  "father_name: " ++ Customer.father_name c ++ nl ++
  "national_id: " ++ Customer.national_id c ++ nl ++
  "shenasname_id: " ++ Customer.shenasname_id c ++ nl ++
  "birth_date: " ++ isoformat (Customer.birth_date c) ++ nl ++
  "Address: " ++ Customer.address c ++ nl ++ nl.

Definition get_customer (customer_id : string) : M string :=
  Session ;;
  customer <- session_query customer_id ;;
  let result := nl in
  match customer with
  | Some c =>
      let result := result ++ format_customer c in
      session_close ;;
      ret result
  | None => ret customer_not_found
  end.

Definition create_service (customer_id phone_number service_name : string)
  : M string :=
  Session ;;
  customer <- session_query customer_id ;;
  match customer with
  | None =>
      session_close ;;
      ret customer_not_found
  | Some c =>
      if Customer.services_count c >=? 10 then
        session_close ;;
        ret maximum_reached
      else
        session_add (NewService service_name phone_number customer_id) ;;
        session_add (SetServicesCount (Customer.id c)
                                      (Customer.services_count c + 1)) ;;
        session_commit ;;
        session_close ;;
        ret service_created
  end.

Definition format_customer_head (c : Customer.t) : string :=
  "Customer ID: " ++ str_int (Customer.id c) ++ nl ++
  "Name: " ++ Customer.name c ++ nl ++
  "Family: " ++ Customer.family c ++ nl ++ nl ++
  "Services:" ++ nl.

Definition format_service (s : Service.t) : string :=
  "Service ID: " ++ str_int (Service.id s) ++ nl ++
  "Name: " ++ Service.name s ++ nl ++
  "Phone Number: " ++ Service.phone_number s ++ nl ++ nl.

Definition get_customer_services (customer_id : string) : M string :=
  Session ;;
  customer <- session_query customer_id ;;
  let result := nl in
  match customer with
  | Some c =>
      let result := result ++ format_customer_head c in
      services <- session_services c ;;
      let result :=
        fold_left (fun acc s => acc ++ format_service s) services result in
      session_close ;;
      ret result
  | None => ret customer_not_found
  end.

(** ** Requests and runs of the service *)

Inductive request :=
| AddCustomer (today : date)
              (name family father_name national_id shenasname_id birth_date
                 address : string)
| GetCustomer (customer_id : string)
| CreateService (customer_id phone_number service_name : string)
| GetCustomerServices (customer_id : string).

Definition handler (r : request) : M string :=
  match r with
  | AddCustomer t n f fa ni sh b a => add_customer t n f fa ni sh b a
  | GetCustomer cid => get_customer cid
  | CreateService cid ph sn => create_service cid ph sn
  | GetCustomerServices cid => get_customer_services cid
  end.

Definition serve (r : request) (db : Database) : outcome string * Database :=
  run (handler r) db.

(** A sequence of requests, served one at a time: the results in order and
    the database left behind. *)
Fixpoint serve_list (rs : list request) (db : Database)
  : list (outcome string) * Database :=
  match rs with
  | [] => ([], db)
  | r :: rs' =>
      let (o, db1) := serve r db in
      let (os, db2) := serve_list rs' db1 in
      (o :: os, db2)
  end.

(** The states the service can be in: those a sequence of requests leads to
    from the empty tables that start-up creates. *)
Definition reachable (db : Database) : Prop :=
  exists rs, db = snd (serve_list rs empty_db).

(** ** Notions used to state the properties *)

(** The row that [add_customer] inserts into [db]. *)
Definition inserted_customer (db : Database)
    (name family father_name national_id shenasname_id : string)
    (birth : date) (address : string) : Customer.t :=
  Customer.mk (next_id (map Customer.id (customers db)))
              name family father_name national_id shenasname_id birth
              address 0.

(** The update of [services_count] that [create_service] writes: the rows
    with key [k] get the count [n]. *)
Definition bump (k : Z) (n : Z) (c : Customer.t) : Customer.t :=
  if Customer.id c =? k then Customer.with_services_count n c else c.

(** The row that [create_service] inserts into [db] for customer [c]. *)
Definition inserted_service (db : Database) (c : Customer.t)
    (phone_number service_name : string) : Service.t :=
  Service.mk (next_id (map Service.id (services db)))
             service_name phone_number (Integer (Customer.id c)).

(** Order of dates, on the triples (year, month, day). *)
Definition date_leb (a b : date) : bool :=
  (year a <? year b) ||
  ((year a =? year b) &&
   ((month a <? month b) || ((month a =? month b) && (day a <=? day b)))).

(** The day, month and year of the eighteenth birthday. *)
Definition eighteenth_birthday (birth : date) : date :=
  mkdate (year birth + 18) (month birth) (day birth).

(** The calendar day after [d]. *)
Definition next_day (d : date) : date :=
  if day d <? days_in_month (year d) (month d)
  then mkdate (year d) (month d) (day d + 1)
  else if month d <? 12 then mkdate (year d) (month d + 1) 1
       else mkdate (year d + 1) 1 1.

(** Texts of the shape [DDDD-DD-DD], every [D] a digit. *)
Definition zero_padded (s : string) : bool :=
  match s with
  | String y1 (String y2 (String y3 (String y4 (String h1
      (String m1 (String m2 (String h2 (String d1 (String d2
        EmptyString))))))))) =>
      is_digit y1 && is_digit y2 && is_digit y3 && is_digit y4 &&
      Ascii.eqb h1 "-" && is_digit m1 && is_digit m2 &&
      Ascii.eqb h2 "-" && is_digit d1 && is_digit d2
  | _ => false
  end.

(** No row of [customers] has the key that the text [cid] denotes. *)
Definition absent (db : Database) (cid : string) : Prop :=
  forall c, In c (customers db) -> text_key cid <> Some (Customer.id c).

(** The services count the store holds for the key [k], 0 when no customer
    has that key. *)
Definition count_of (db : Database) (k : Z) : Z :=
  match find (fun c => Customer.id c =? k) (customers db) with
  | Some c => Customer.services_count c
  | None => 0
  end.

(** The rows of [services] that reference the key [k]. *)
Definition services_of (db : Database) (k : Z) : list Service.t :=
  filter (fun s => value_eqb (Service.customer_id s) (Integer k))
         (services db).

(** Whether the request [r] with result [o] was a call of [create_service]
    for the key [k] that returned the success message (1) or not (0). *)
Definition created (k : Z) (r : request) (o : outcome string) : nat :=
  match r, o with
  | CreateService cid _ _, Returned msg =>
      match text_key cid with
      | Some k' =>
          if (k' =? k) && String.eqb msg service_created
          then 1%nat else 0%nat
      | None => 0%nat
      end
  | _, _ => 0%nat
  end.

(** How many of the requests [rs], with results [os], were such calls. *)
Fixpoint created_for (k : Z) (rs : list request) (os : list (outcome string))
  : nat :=
  match rs, os with
  | r :: rs', o :: os' => Nat.add (created k r o) (created_for k rs' os')
  | _, _ => 0%nat
  end.

(** The request [r] is a call of [create_service] for the key [k]. *)
Definition targets (k : Z) (r : request) : bool :=
  match r with
  | CreateService cid _ _ =>
      match integer_literal cid with
      | Some k' => k' =? k
      | None => false
      end
  | _ => false
  end.

(** A text of one or two digits and the number it is read as. *)
Inductive number_text : string -> Z -> Prop :=
| number_1 c :
    is_digit c = true ->
    number_text (String c EmptyString) (digit_val c)
| number_2 c1 c2 :
    is_digit c1 = true -> is_digit c2 = true ->
    number_text (String c1 (String c2 EmptyString))
                (10 * digit_val c1 + digit_val c2).

(** The texts of the day field: a number, or a blank and a digit. *)
Inductive day_text : string -> Z -> Prop :=
| day_number t d : number_text t d -> day_text t d
| day_blank c :
    is_digit c = true ->
    day_text (String " " (String c EmptyString)) (digit_val c).

(** ** Notions used to state how the store evolves *)

(** [c'] is the row [c] with, at most, another [services_count]. *)
Definition same_person (c c' : Customer.t) : Prop :=
  c' = Customer.with_services_count (Customer.services_count c') c.

(** [db'] keeps every row of [db] at its place: the customers of [db], each
    with at most another [services_count], followed by new ones, and the
    services of [db] followed by new ones. *)
Definition evolves (db db' : Database) : Prop :=
  (exists cs xs,
     customers db' = (cs ++ xs)%list /\
     Forall2 same_person (customers db) cs) /\
  (exists ys, services db' = (services db ++ ys)%list).

(** The keys 1, 2, ..., n. *)
Definition keys (n : nat) : list Z := map Z.of_nat (seq 1 n).

(** ** Sample data *)

Definition sample_today : date := mkdate 2024 3 15.

Definition sample_customer : Customer.t :=
  Customer.mk 1 "Ali" "Rezaei" "Hasan" "0012345678" "4321"
              (mkdate 1990 5 20) "Tehran" 0.

(** The store after [sample_customer] has been added to the empty one. *)
Definition sample_db : Database := mkDatabase [sample_customer] [] 1.

Definition ten_requests : list request :=
  repeat (CreateService "1" "09120000000" "sim") 10.

Definition sample_requests : list request :=
  [AddCustomer sample_today "Ali" "Rezaei" "Hasan" "0012345678" "4321"
               "1990-05-20" "Tehran";
   CreateService "1" "09120000000" "sim";
   GetCustomer "1";
   CreateService "+1" "09350000000" "data";
   CreateService "2" "09350000000" "data"].

(** How many of the results [os] are the answer [msg]. *)
Definition answered (msg : string) (os : list (outcome string)) : nat :=
  List.length
    (filter (fun o => match o with
                      | Returned m => String.eqb m msg
                      | Raised _ => false
                      end) os).

(** The store after [sample_requests] have been served from the empty
    one. *)
Definition sample_served : Database :=
  mkDatabase
    [Customer.with_services_count 2 sample_customer]
    [Service.mk 1 "sim" "09120000000" (Integer 1);
     Service.mk 2 "data" "09350000000" (Integer 1)]
    3.

(** * Properties *)

(** ** The model on sample inputs *)

Example strptime_padded :
  strptime "1990-05-20" = Returned (mkdate 1990 5 20).
Proof. reflexivity. Qed.

Example strptime_one_digit_fields :
  strptime "2000-1-5" = Returned (mkdate 2000 1 5).
Proof. reflexivity. Qed.

Example strptime_blank_day :
  strptime "2000-01- 5" = Returned (mkdate 2000 1 5).
Proof. reflexivity. Qed.

Example strptime_no_such_day : strptime "2001-02-29" = Raised ValueError.
Proof. reflexivity. Qed.

Example strptime_text_left_over : strptime "2000-12-311" = Raised ValueError.
Proof. reflexivity. Qed.

Example strptime_other_separator : strptime "02/11/1985" = Raised ValueError.
Proof. reflexivity. Qed.

Example isoformat_pads : isoformat (mkdate 987 1 5) = "0987-01-05".
Proof. reflexivity. Qed.

Example age_on_birthday : age sample_today (mkdate 2006 3 15) = 18.
Proof. reflexivity. Qed.

Example age_before_birthday : age sample_today (mkdate 2006 3 16) = 17.
Proof. reflexivity. Qed.

Example age_leap_day : age (mkdate 2018 2 28) (mkdate 2000 2 29) = 17.
Proof. reflexivity. Qed.

Example integer_literal_samples :
  integer_literal "12" = Some 12 /\ integer_literal "+012" = Some 12 /\
  integer_literal "-3" = Some (-3) /\ integer_literal "abc" = None /\
  integer_literal EmptyString = None /\ integer_literal "1x" = None.
Proof. repeat split. Qed.

Example read_text_samples :
  read_text "12" = IntegerText 12 /\ read_text " 12" = IntegerText 12 /\
  read_text "+012 " = IntegerText 12 /\ read_text "-3" = IntegerText (-3) /\
  read_text "1.0" = RealText 10 (-1) /\ read_text "1." = RealText 1 0 /\
  read_text "1e0" = RealText 1 0 /\ read_text ".1e1" = RealText 1 0 /\
  read_text "1.5" = RealText 15 (-1) /\ read_text "1e5" = RealText 1 5.
Proof. repeat split. Qed.

Example read_text_no_number :
  read_text "abc" = PlainText /\ read_text EmptyString = PlainText /\
  read_text "1x" = PlainText /\ read_text "1 x" = PlainText /\
  read_text "1e" = PlainText /\ read_text "1e+" = PlainText /\
  read_text "e1" = PlainText /\ read_text "+ 1" = PlainText /\
  read_text "." = PlainText /\ read_text "0x1" = PlainText /\
  read_text "1e 5" = PlainText /\ read_text "1 e5" = PlainText.
Proof. repeat split. Qed.

Example exact_value_samples :
  exact_value 10 (-1) = Some 1 /\ exact_value 1 0 = Some 1 /\
  exact_value 15 (-1) = None /\ exact_value 1 5 = Some 100000.
Proof. repeat split. Qed.

Example add_then_get :
  serve_list
    [AddCustomer sample_today "Ali" "Rezaei" "Hasan" "0012345678" "4321"
                 "1990-05-20" "Tehran";
     GetCustomer "2"]
    empty_db
  = ([Returned "Customer added successfully.";
      Returned "Customer not found."],
     sample_db).
Proof. reflexivity. Qed.

(** ** The handlers as functions of the committed state *)

Lemma run_add_customer today n f fa ni sh bs a db :
  run (add_customer today n f fa ni sh bs a) db =
  match strptime bs with
  | Raised e => (Raised e, db)
  | Returned b =>
      if age today b <? 18 then (Returned age_rejected, db)
      else (Returned customer_added,
            mkDatabase (customers db ++ [inserted_customer db n f fa ni sh b a])
                       (services db) (S (transactions db)))
  end.
Proof.
  unfold run, add_customer, bind, Session, lift; cbn.
  destruct (strptime bs) as [b|e]; cbn; [|reflexivity].
  destruct (age today b <? 18); reflexivity.
Qed.

Lemma run_get_customer cid db :
  run (get_customer cid) db =
  match query_customer db cid with
  | Some c => (Returned (nl ++ format_customer c), db)
  | None => (Returned customer_not_found, db)
  end.
Proof.
  unfold run, get_customer, bind, Session, session_query; cbn.
  destruct (query_customer db cid); reflexivity.
Qed.

Lemma run_get_customer_services cid db :
  run (get_customer_services cid) db =
  match query_customer db cid with
  | Some c =>
      (Returned (fold_left (fun acc s => acc ++ format_service s)
                           (customer_services db c)
                           (nl ++ format_customer_head c)), db)
  | None => (Returned customer_not_found, db)
  end.
Proof.
  unfold run, get_customer_services, bind, Session, session_query; cbn.
  destruct (query_customer db cid); reflexivity.
Qed.

Lemma run_create_service cid ph sn db :
  run (create_service cid ph sn) db =
  match query_customer db cid with
  | None => (Returned customer_not_found, db)
  | Some c =>
      if Customer.services_count c >=? 10 then (Returned maximum_reached, db)
      else (Returned service_created,
            mkDatabase
              (map (bump (Customer.id c) (Customer.services_count c + 1))
                   (customers db))
              (services db ++ [inserted_service db c ph sn])
              (S (transactions db)))
  end.
Proof.
  unfold run, create_service, bind, Session, session_query; cbn.
  destruct (query_customer db cid) as [c|] eqn:Q; cbn; [|reflexivity].
  destruct (Customer.services_count c >=? 10); cbn; [reflexivity|].
  unfold inserted_service, bump.
  unfold query_customer in Q.
  destruct (integer_affinity cid) as [k|t] eqn:A; [|discriminate].
  apply find_some in Q. destruct Q as [_ Q]. apply Z.eqb_eq in Q.
  rewrite Q. reflexivity.
Qed.

(** ** The update of a counter, seen through the lookup *)

Lemma bump_hit k n x :
  (Customer.id x =? k) = true -> bump k n x = Customer.with_services_count n x.
Proof. unfold bump. now intros ->. Qed.

Lemma bump_miss k n x :
  (Customer.id x =? k) = false -> bump k n x = x.
Proof. unfold bump. now intros ->. Qed.

Lemma find_bump_same k n l c :
  find (fun x => Customer.id x =? k) l = Some c ->
  find (fun x => Customer.id x =? k) (map (bump k n) l)
  = Some (Customer.with_services_count n c).
Proof.
  induction l as [|x l IH]; cbn; [discriminate|].
  destruct (Customer.id x =? k) eqn:E.
  - intros [= ->]. rewrite (bump_hit _ _ _ E). cbn. now rewrite E.
  - rewrite (bump_miss _ _ _ E), E. exact IH.
Qed.

Lemma find_bump_other k k' n l :
  k <> k' ->
  find (fun x => Customer.id x =? k') (map (bump k n) l)
  = find (fun x => Customer.id x =? k') l.
Proof.
  intros N. induction l as [|x l IH]; cbn; [reflexivity|].
  destruct (Customer.id x =? k) eqn:E.
  - rewrite (bump_hit _ _ _ E). cbn.
    apply Z.eqb_eq in E.
    assert ((Customer.id x =? k') = false) as -> by (apply Z.eqb_neq; lia).
    exact IH.
  - rewrite (bump_miss _ _ _ E), IH. reflexivity.
Qed.

Lemma map_id_bump k n l :
  map Customer.id (map (bump k n) l) = map Customer.id l.
Proof.
  rewrite map_map. apply map_ext. intros x. unfold bump.
  destruct (Customer.id x =? k); reflexivity.
Qed.

(** ** Looking a customer up *)

Lemma integer_affinity_Integer s k :
  integer_affinity s = Integer k <-> text_key s = Some k.
Proof.
  unfold integer_affinity.
  destruct (text_key s); split; intros H; inversion H; reflexivity.
Qed.

Lemma query_customer_absent db cid :
  absent db cid <-> query_customer db cid = None.
Proof.
  unfold absent, query_customer, integer_affinity.
  destruct (text_key cid) as [k|] eqn:L.
  - split.
    + intros H.
      destruct (find _ _) as [c|] eqn:F; [|reflexivity].
      apply find_some in F. destruct F as [I E]. apply Z.eqb_eq in E.
      exfalso. apply (H c I). congruence.
    + intros F c I E. inversion E; subst k.
      apply (find_none _ _ F) in I. rewrite Z.eqb_refl in I. discriminate.
  - split; [reflexivity | intros _ c _ E; discriminate].
Qed.

Lemma query_customer_found db cid c :
  query_customer db cid = Some c ->
  In c (customers db) /\ text_key cid = Some (Customer.id c).
Proof.
  unfold query_customer.
  destruct (integer_affinity cid) as [k|t] eqn:A; [|discriminate].
  intros F. apply find_some in F. destruct F as [I E].
  apply Z.eqb_eq in E. subst k.
  split; [assumption | now apply integer_affinity_Integer].
Qed.

(** With keys that are unique, the lookup finds the row by its key. *)
Lemma find_NoDup l c :
  NoDup (map Customer.id l) -> In c l ->
  find (fun x => Customer.id x =? Customer.id c) l = Some c.
Proof.
  induction l as [|x l IH]; cbn [map In find]; [easy|].
  intros N I. inversion N as [|? ? Nx Nl]; subst.
  destruct I as [-> | I]; [now rewrite Z.eqb_refl|].
  destruct (Customer.id x =? Customer.id c) eqn:E; [|now apply IH].
  apply Z.eqb_eq in E. elim Nx. rewrite E. now apply in_map.
Qed.

(** C6: for a customer id that no row of the store carries, [get_customer]
    and [get_customer_services] both return exactly "Customer not found." and
    leave the whole store (both tables and the committed transactions) as it
    was. *)
Theorem lookup_absent_customer_not_found db cid :
  absent db cid ->
  run (get_customer cid) db = (Returned "Customer not found.", db) /\
  run (get_customer_services cid) db = (Returned "Customer not found.", db).
Proof.
  intros H. apply query_customer_absent in H.
  rewrite run_get_customer, run_get_customer_services, H.
  split; reflexivity.
Qed.

(** C7: for a customer id that no row of the store carries,
    [create_service] returns "Customer not found." and leaves the store as it
    was: no service row is created and no [services_count] is changed. *)
Theorem create_service_absent_customer db cid ph sn :
  absent db cid ->
  run (create_service cid ph sn) db = (Returned "Customer not found.", db).
Proof.
  intros H. apply query_customer_absent in H.
  rewrite run_create_service, H. reflexivity.
Qed.

(** C10: for a birth date that parses and gives an age below 18,
    [add_customer] returns the age message and the store is as it was: no
    customer row is inserted and no transaction is committed. *)
Theorem add_customer_rejection_leaves_store
    today n f fa ni sh bs a db b :
  strptime bs = Returned b ->
  age today b < 18 ->
  run (add_customer today n f fa ni sh bs a) db
  = (Returned "Age must be 18 or older to register as a customer.", db).
Proof.
  intros P A. rewrite run_add_customer, P.
  apply Z.ltb_lt in A. rewrite A. reflexivity.
Qed.

(** C3: [create_service] checks in a fixed order.  In a store whose keys
    are unique: when no customer row has the key that the id is read as, it
    returns "Customer not found."; when a row has it and its
    [services_count] is not below 10, it returns the maximum-reached message;
    in both cases the store is as it was.  When a row has it and its count
    is below 10, it returns the success message, and one transaction has
    appended a service row referencing the customer and raised that
    customer's [services_count] by one. *)
Theorem create_service_checks_in_order db cid ph sn :
  NoDup (map Customer.id (customers db)) ->
  (absent db cid ->
   run (create_service cid ph sn) db = (Returned "Customer not found.", db)) /\
  (forall c,
     In c (customers db) ->
     text_key cid = Some (Customer.id c) ->
     (10 <= Customer.services_count c ->
      run (create_service cid ph sn) db
      = (Returned "Maximum number of services reached for this customer.",
         db)) /\
     (Customer.services_count c < 10 ->
      exists db',
        run (create_service cid ph sn) db
        = (Returned "Service created successfully.", db') /\
        services db' =
          (services db ++
             [Service.mk (next_id (map Service.id (services db))) sn ph
                         (Integer (Customer.id c))])%list /\
        customers db' =
          map (fun x => if Customer.id x =? Customer.id c
                        then Customer.with_services_count
                               (Customer.services_count c + 1) x
                        else x)
              (customers db) /\
        query_customer db' cid =
          Some (Customer.with_services_count
                  (Customer.services_count c + 1) c) /\
        transactions db' = S (transactions db))).
Proof.
  intros N. rewrite run_create_service. split.
  - intros A. apply query_customer_absent in A. now rewrite A.
  - intros c I K.
    pose proof (find_NoDup _ _ N I) as F.
    assert (query_customer db cid = Some c) as Q
      by (unfold query_customer, integer_affinity; now rewrite K).
    rewrite Q. rewrite Z.geb_leb. split; intros H.
    + apply Z.leb_le in H. now rewrite H.
    + assert ((10 <=? Customer.services_count c) = false) as ->
        by (apply Z.leb_gt; lia).
      eexists. split; [reflexivity|]. cbn [services customers transactions].
      repeat split.
      unfold query_customer, integer_affinity. rewrite K. cbn [customers].
      now apply find_bump_same.
Qed.

(** ** The age gate of [add_customer] *)

Lemma age_cutoff today b :
  18 <= age today b <-> date_leb (eighteenth_birthday b) today = true.
Proof.
  unfold age, pair_lt, date_leb, eighteenth_birthday; cbn.
  destruct (month today <? month b) eqn:M1;
    destruct (month today =? month b) eqn:M2;
    destruct (day today <? day b) eqn:D1;
    destruct (year b + 18 <? year today) eqn:Y1;
    destruct (year b + 18 =? year today) eqn:Y2;
    destruct (month b <? month today) eqn:M3;
    destruct (month b =? month today) eqn:M4;
    destruct (day b <=? day today) eqn:D2;
    cbn; split; intros H; try reflexivity; try discriminate; lia.
Qed.

Lemma next_id_fresh ids k : In k ids -> k < next_id ids.
Proof.
  unfold next_id. induction ids as [|i ids IH]; cbn [fold_right In];
    [contradiction|].
  pose proof (Z.le_max_l i (fold_right Z.max 0 ids)).
  pose proof (Z.le_max_r i (fold_right Z.max 0 ids)).
  intros [E | I]; [|specialize (IH I)]; lia.
Qed.

(** C1: [add_customer] succeeds exactly when the calendar-aware age is at
    least 18.  The age is the difference of the years, less one when the
    month and day of birth are still ahead in the current year; it is at
    least 18 exactly when the eighteenth birthday is today or earlier.  In
    that case the customer row is inserted in one transaction and the
    success message returned; otherwise the age message is returned.  A
    birth date one day after the date eighteen years before today gives age
    17 and the age message. *)
Theorem add_customer_age_gate today n f fa ni sh bs a db b :
  strptime bs = Returned b ->
  ((month today < month b \/ (month today = month b /\ day today < day b) ->
    age today b = year today - year b - 1) /\
   (~ (month today < month b \/ (month today = month b /\ day today < day b)) ->
    age today b = year today - year b)) /\
  (18 <= age today b <-> date_leb (eighteenth_birthday b) today = true) /\
  (date_leb (eighteenth_birthday b) today = true ->
   run (add_customer today n f fa ni sh bs a) db
   = (Returned "Customer added successfully.",
      mkDatabase
        (customers db ++
           [Customer.mk (next_id (map Customer.id (customers db)))
                        n f fa ni sh b a 0])
        (services db) (S (transactions db)))) /\
  (date_leb (eighteenth_birthday b) today = false ->
   run (add_customer today n f fa ni sh bs a) db
   = (Returned "Age must be 18 or older to register as a customer.", db)) /\
  (valid_date (year today) (month today) (day today) = true ->
   b = next_day (mkdate (year today - 18) (month today) (day today)) ->
   age today b = 17 /\
   run (add_customer today n f fa ni sh bs a) db
   = (Returned "Age must be 18 or older to register as a customer.", db)).
Proof.
  intros P. rewrite run_add_customer, P.
  split; [split|split; [|split; [|split]]].
  - unfold age, pair_lt; cbn. intros H.
    destruct (month today <? month b) eqn:M1;
      destruct (month today =? month b) eqn:M2;
      destruct (day today <? day b) eqn:D1; cbn; lia.
  - unfold age, pair_lt; cbn. intros H.
    destruct (month today <? month b) eqn:M1;
      destruct (month today =? month b) eqn:M2;
      destruct (day today <? day b) eqn:D1; cbn; lia.
  - apply age_cutoff.
  - intros H. apply age_cutoff in H.
    assert ((age today b <? 18) = false) as -> by (apply Z.ltb_ge; lia).
    reflexivity.
  - intros H.
    assert ((age today b <? 18) = true) as ->; [|reflexivity].
    apply Z.ltb_lt. destruct (Z.le_gt_cases 18 (age today b)) as [L|L]; [|lia].
    apply age_cutoff in L. congruence.
  - intros V ->.
    assert (age today (next_day (mkdate (year today - 18) (month today)
                                        (day today))) = 17) as A.
    { unfold valid_date in V. unfold next_day, age, pair_lt; cbn.
      destruct (day today <? _); [|destruct (month today <? 12)]; cbn.
      + destruct (month today <? month today) eqn:M1;
          destruct (month today =? month today) eqn:M2;
          destruct (day today <? day today + 1) eqn:D1; cbn; lia.
      + destruct (month today <? month today + 1) eqn:M1; cbn; lia.
      + destruct (month today <? 1) eqn:M1;
          destruct (month today =? 1) eqn:M2;
          destruct (day today <? 1) eqn:D1; cbn; lia. }
    rewrite A. split; reflexivity.
Qed.

(** ** Identifiers are not checked for uniqueness *)

(** C8: [add_customer] makes no uniqueness check on the national
    identifier.  When a row of the store already has the national id [ni], a
    call with the same [ni] and an age of at least 18 succeeds all the same,
    and the store then holds the old row and a new row with a different key,
    both with national id [ni]. *)
Theorem add_customer_duplicate_national_id
    today n f fa ni sh bs a db b c0 :
  In c0 (customers db) ->
  Customer.national_id c0 = ni ->
  strptime bs = Returned b ->
  18 <= age today b ->
  exists db' c1,
    run (add_customer today n f fa ni sh bs a) db
    = (Returned "Customer added successfully.", db') /\
    In c0 (customers db') /\
    In c1 (customers db') /\
    Customer.id c1 <> Customer.id c0 /\
    Customer.national_id c1 = ni /\
    List.length (customers db') = S (List.length (customers db)).
Proof.
  intros I N P A.
  rewrite run_add_customer, P.
  assert ((age today b <? 18) = false) as -> by (apply Z.ltb_ge; lia).
  eexists. exists (inserted_customer db n f fa ni sh b a).
  split; [reflexivity|].
  unfold inserted_customer.
  cbn [customers Customer.id Customer.national_id].
  split; [apply in_or_app; now left|].
  split; [apply in_or_app; right; now left|].
  split.
  - pose proof (next_id_fresh (map Customer.id (customers db))
                              (Customer.id c0) (in_map _ _ _ I)) as H.
    lia.
  - split; [reflexivity|].
    rewrite length_app. cbn. lia.
Qed.

(** ** Digits and the texts that [strptime] accepts *)

Lemma is_digit_spec c :
  is_digit c = true -> (48 <= N_of_ascii c <= 57)%N.
Proof.
  unfold is_digit. intros H. apply andb_true_iff in H.
  destruct H as [H1 H2]. apply N.leb_le in H1, H2. now split.
Qed.

Lemma is_digit_val c : is_digit c = true -> 0 <= digit_val c <= 9.
Proof. intros H. apply is_digit_spec in H. unfold digit_val. lia. Qed.

Lemma digit_char_val c : is_digit c = true -> digit_char (digit_val c) = c.
Proof.
  intros H. apply is_digit_spec in H. unfold digit_char, digit_val.
  replace (Z.to_N (Z.of_N (N_of_ascii c) - 48 + 48)) with (N_of_ascii c)
    by lia.
  apply ascii_N_embedding.
Qed.

Lemma in_range_spec lo hi c :
  in_range lo hi c = true ->
  is_digit c = true /\ lo <= digit_val c <= hi.
Proof.
  unfold in_range. intros H.
  apply andb_true_iff in H. destruct H as [H H2].
  apply andb_true_iff in H. destruct H as [H0 H1].
  split; [assumption | lia].
Qed.

Lemma dash_is_no_digit c : Ascii.eqb c "-" = true -> is_digit c = false.
Proof. intros H. apply Ascii.eqb_eq in H. subst c. reflexivity. Qed.

Ltac euclid := Z.to_euclidean_division_equations; lia.

Lemma pad2_digits a b :
  0 <= a <= 9 -> 0 <= b <= 9 ->
  pad2 (10 * a + b)
  = String (digit_char a) (String (digit_char b) EmptyString).
Proof.
  clear real_key.
  intros Ha Hb. unfold pad2.
  replace ((10 * a + b) / 10 mod 10) with a by euclid.
  replace ((10 * a + b) mod 10) with b by euclid.
  reflexivity.
Qed.

Lemma pad4_digits a b c d :
  0 <= a <= 9 -> 0 <= b <= 9 -> 0 <= c <= 9 -> 0 <= d <= 9 ->
  pad4 (1000 * a + 100 * b + 10 * c + d)
  = String (digit_char a) (String (digit_char b)
      (String (digit_char c) (String (digit_char d) EmptyString))).
Proof.
  clear real_key.
  intros Ha Hb Hc Hd. unfold pad4.
  replace ((1000 * a + 100 * b + 10 * c + d) / 1000 mod 10) with a by euclid.
  replace ((1000 * a + 100 * b + 10 * c + d) / 100 mod 10) with b by euclid.
  replace (1000 * a + 100 * b + 10 * c + d)
    with (10 * (10 * (10 * a + b) + c) + d) by lia.
  unfold pad2.
  replace ((10 * (10 * (10 * a + b) + c) + d) / 10 mod 10) with c by euclid.
  replace ((10 * (10 * (10 * a + b) + c) + d) mod 10) with d by euclid.
  reflexivity.
Qed.

Lemma first_match_some {A B : Type} (k : A -> option B) l b :
  first_match k l = Some b -> exists a, In a l /\ k a = Some b.
Proof.
  induction l as [|a l IH]; cbn; [discriminate|].
  destruct (k a) as [b'|] eqn:K.
  - intros [= <-]. exists a. split; [now left | assumption].
  - intros H. destruct (IH H) as [a' [I K']].
    exists a'. split; [now right | assumption].
Qed.

Ltac range_facts :=
  repeat match goal with
    | H : (_ && _) = true |- _ =>
        apply andb_true_iff in H; destruct H
    | H : in_range _ _ _ = true |- _ =>
        apply in_range_spec in H; destruct H
    | H : Ascii.eqb _ _ = true |- _ => apply Ascii.eqb_eq in H; subst
    end.

Ltac pair_eq I :=
  let E1 := fresh in
  let E2 := fresh in
  pose proof (f_equal fst I) as E1; pose proof (f_equal snd I) as E2;
  cbn [fst snd] in E1, E2; clear I; subst.

Lemma alts_m_sound s m r :
  In (m, r) (alts_m s) -> exists t, s = t ++ r /\ number_text t m.
Proof.
  unfold alts_m. intros I.
  repeat (apply in_app_or in I; destruct I as [I|I]);
    destruct s as [|c1 s]; try contradiction;
    try (destruct s as [|c2 s]; try contradiction);
    match type of I with
    | In _ (if ?t then _ else _) => destruct t eqn:T; [|contradiction]
    end;
    (destruct I as [I|[]]); pair_eq I; range_facts.
  - exists (String c1 (String c2 EmptyString)). split; [reflexivity|].
    replace (10 + digit_val c2) with (10 * digit_val c1 + digit_val c2) by lia.
    now constructor.
  - exists (String c1 (String c2 EmptyString)). split; [reflexivity|].
    replace (digit_val c2) with (10 * digit_val c1 + digit_val c2) by lia.
    now constructor.
  - exists (String c1 EmptyString). split; [reflexivity|]. now constructor.
  - exists (String c1 EmptyString). split; [reflexivity|]. now constructor.
Qed.

Lemma alts_d_sound s d r :
  In (d, r) (alts_d s) -> exists t, s = t ++ r /\ day_text t d.
Proof.
  unfold alts_d. intros I.
  repeat (apply in_app_or in I; destruct I as [I|I]);
    destruct s as [|c1 s]; try contradiction;
    try (destruct s as [|c2 s]; try contradiction);
    match type of I with
    | In _ (if ?t then _ else _) => destruct t eqn:T; [|contradiction]
    end;
    (destruct I as [I|[]]); pair_eq I; range_facts.
  - exists (String c1 (String c2 EmptyString)). split; [reflexivity|].
    replace (30 + digit_val c2) with (10 * digit_val c1 + digit_val c2) by lia.
    constructor. now constructor.
  - exists (String c1 (String c2 EmptyString)). split; [reflexivity|].
    constructor. now constructor.
  - exists (String c1 (String c2 EmptyString)). split; [reflexivity|].
    replace (digit_val c2) with (10 * digit_val c1 + digit_val c2) by lia.
    constructor. now constructor.
  - exists (String c1 EmptyString). split; [reflexivity|].
    constructor. now constructor.
  - exists (String c1 EmptyString). split; [reflexivity|].
    constructor. now constructor.
  - exists (String " " (String c2 EmptyString)). split; [reflexivity|].
    now apply day_blank.
Qed.

Lemma append_empty (s : string) : s ++ EmptyString = s.
Proof. induction s as [|c s IH]; cbn; [reflexivity | now rewrite IH]. Qed.

Lemma match_dash_some s r : match_dash s = Some r -> s = String "-" r.
Proof.
  destruct s as [|c s]; cbn; [discriminate|].
  destruct (Ascii.eqb c "-") eqn:E; [|discriminate].
  apply Ascii.eqb_eq in E. now intros [= ->]; subst.
Qed.

(** What a text that [strptime] accepts looks like, and the date it gives. *)
Lemma strptime_Returned s b :
  strptime s = Returned b ->
  exists c1 c2 c3 c4 mt dt,
    s = String c1 (String c2 (String c3 (String c4
          (String "-" (mt ++ String "-" dt))))) /\
    (is_digit c1 = true /\ is_digit c2 = true /\
     is_digit c3 = true /\ is_digit c4 = true) /\
    year b = 1000 * digit_val c1 + 100 * digit_val c2
             + 10 * digit_val c3 + digit_val c4 /\
    number_text mt (month b) /\
    day_text dt (day b) /\
    valid_date (year b) (month b) (day b) = true.
Proof.
  unfold strptime.
  destruct (format_regex_match s) as [[[[y m] d] rest]|] eqn:F; [|discriminate].
  destruct rest; [|discriminate].
  destruct (valid_date y m d) eqn:V; [|discriminate].
  intros [= <-]. cbn [year month day].
  unfold format_regex_match in F.
  destruct (match_Y s) as [[y' r1]|] eqn:Y; [|discriminate].
  destruct (match_dash r1) as [r2|] eqn:D1; [|discriminate].
  apply match_dash_some in D1. subst r1.
  apply first_match_some in F. destruct F as [[m' r3] [Im F]].
  cbn [fst snd] in F.
  destruct (match_dash r3) as [r4|] eqn:D2; [|discriminate].
  apply match_dash_some in D2. subst r3.
  apply first_match_some in F. destruct F as [[d' r5] [Id F]].
  cbn [fst snd] in F.
  assert (y' = y /\ m' = m /\ d' = d /\ r5 = EmptyString) as (-> & -> & -> & ->)
    by (repeat split; congruence).
  clear F.
  apply alts_m_sound in Im. destruct Im as [mt [-> Hm]].
  apply alts_d_sound in Id. destruct Id as [dt [-> Hd]].
  rewrite append_empty in Y.
  unfold match_Y in Y.
  destruct s as [|c1 [|c2 [|c3 [|c4 s]]]]; try discriminate.
  destruct (is_digit c1 && is_digit c2 && is_digit c3 && is_digit c4) eqn:T;
    [|discriminate].
  pose proof (f_equal (fun o => match o with
                                | Some p => p
                                | None => (0, EmptyString)
                                end) Y) as Y'.
  cbn beta iota in Y'. clear Y. pair_eq Y'.
  exists c1, c2, c3, c4, mt, dt.
  apply andb_true_iff in T. destruct T as [T T4].
  apply andb_true_iff in T. destruct T as [T T3].
  apply andb_true_iff in T. destruct T as [T1 T2].
  repeat split; assumption.
Qed.

Ltac padded_absurd Z :=
  exfalso; cbn in Z;
  repeat match goal with
    | H : is_digit _ = true |- _ => rewrite H in Z
    end;
  cbn in Z; discriminate.

(** A zero-padded text that [strptime] accepts is the ISO form of its
    date. *)
Lemma isoformat_strptime s b :
  zero_padded s = true -> strptime s = Returned b -> isoformat b = s.
Proof.
  clear real_key.
  intros Z P.
  destruct (strptime_Returned s b P)
    as (c1 & c2 & c3 & c4 & mt & dt & E & (T1 & T2 & T3 & T4) & Y & Hm & Hd & _).
  destruct b as [y m d]. cbn [year month day] in *.
  subst s y. unfold isoformat. cbn [year month day].
  rewrite pad4_digits by (now apply is_digit_val).
  rewrite !digit_char_val by assumption.
  cbn [append]. do 5 f_equal.
  inversion Hm as [c D1 | c5 c6 D1 D2]; subst.
  - (* a single digit is followed by the dash, not by a digit *)
    destruct dt as [|x [|x' [|x'' [|x3 dt]]]]; padded_absurd Z.
  - inversion Hd as [t d' Hn | c D3]; subst.
    + inversion Hn as [c D3 | c7 c8 D3 D4]; subst.
      * padded_absurd Z.
      * rewrite !pad2_digits by (now apply is_digit_val).
        rewrite !digit_char_val by assumption. reflexivity.
    + (* a blank is no digit *)
      padded_absurd Z.
Qed.

(** ** Keys as text *)

Lemma of_uint_acc_value d : forall acc,
  Z.pos (Pos.of_uint_acc d acc) = uint_value (Z.pos acc) d.
Proof.
  induction d; intros acc; cbn [Pos.of_uint_acc uint_value];
    try reflexivity; rewrite IHd; f_equal; lia.
Qed.

Lemma of_uint_value d : Z.of_uint d = uint_value 0 d.
Proof.
  unfold Z.of_uint.
  induction d; cbn [Pos.of_uint uint_value]; try reflexivity;
    try (cbn [Z.of_N]; rewrite of_uint_acc_value; reflexivity).
  exact IHd.
Qed.

(** A text of digits only is read to its end, as its decimal value. *)
Lemma digits_prefix_uint s : forall d acc,
  NilEmpty.uint_of_string s = Some d ->
  exists n, digits_prefix acc s = (uint_value acc d, n, EmptyString) /\
            (n = 0%nat <-> s = EmptyString).
Proof.
  clear real_key.
  induction s as [|c s IH]; intros d acc H.
  - cbn in H. injection H as <-. exists 0%nat. cbn. intuition.
  - cbn [NilEmpty.uint_of_string] in H.
    destruct (NilEmpty.uint_of_string s) as [d'|] eqn:E; [|discriminate].
    apply uint_of_char_spec in H.
    cbn [digits_prefix].
    repeat (destruct H as [[-> ->]|H]);
      [..|destruct H as [-> ->]];
      cbn [is_digit digit_val N_of_ascii N.leb andb];
      match goal with
      | |- context [digits_prefix ?a s] =>
          destruct (IH d' a eq_refl) as (n & -> & _)
      end;
      exists (S n); (split; [reflexivity | split; discriminate]).
Qed.

Lemma read_number_digits sg s d :
  s <> EmptyString ->
  NilEmpty.uint_of_string s = Some d ->
  read_number sg s = IntegerText (sg * Z.of_uint d).
Proof.
  clear real_key.
  intros N H. unfold read_number.
  destruct (digits_prefix_uint s d 0 H) as (n & -> & Hn).
  destruct n as [|n]; [now elim N; apply Hn|].
  cbn [Nat.add Nat.eqb]. now rewrite of_uint_value.
Qed.

Lemma uint_of_string_nonempty s d :
  NilZero.uint_of_string s = Some d ->
  s <> EmptyString /\ NilEmpty.uint_of_string s = Some d.
Proof.
  destruct s; [discriminate|]. intros H. split; [discriminate | exact H].
Qed.

(** The store reads a plain integer literal as that integer. *)
Lemma read_text_integer_literal s k :
  integer_literal s = Some k -> read_text s = IntegerText k.
Proof.
  clear real_key.
  destruct s as [|c s]; [discriminate|]. unfold integer_literal.
  destruct (Ascii.eqb c "+") eqn:Ep; [|destruct (Ascii.eqb c "-") eqn:Em].
  - apply Ascii.eqb_eq in Ep. subst c.
    destruct (NilZero.uint_of_string s) as [d|] eqn:U; [|discriminate].
    intros [= <-]. apply uint_of_string_nonempty in U. destruct U as [N U].
    change (read_text (String "+" s)) with (read_number 1 s).
    rewrite (read_number_digits 1 s d N U). f_equal; lia.
  - apply Ascii.eqb_eq in Em. subst c.
    destruct (NilZero.uint_of_string s) as [d|] eqn:U; [|discriminate].
    intros [= <-]. apply uint_of_string_nonempty in U. destruct U as [N U].
    change (read_text (String "-" s)) with (read_number (-1) s).
    rewrite (read_number_digits (-1) s d N U). f_equal; lia.
  - destruct (NilZero.uint_of_string (String c s)) as [d|] eqn:U;
      [|discriminate].
    intros [= <-]. apply uint_of_string_nonempty in U. destruct U as [N U].
    assert (is_space c = false) as Sp.
    { cbn [NilEmpty.uint_of_string] in U.
      destruct (NilEmpty.uint_of_string s); [|discriminate].
      apply uint_of_char_spec in U.
      repeat (destruct U as [[-> _]|U]; [reflexivity|]).
      destruct U as [-> _]. reflexivity. }
    unfold read_text. cbn [skip_spaces]. rewrite Sp.
    cbn [sign_prefix]. rewrite Em, Ep. cbv beta iota.
    rewrite (read_number_digits 1 (String c s) d N U). f_equal; lia.
Qed.

Lemma text_key_integer_literal s k :
  integer_literal s = Some k -> text_key s = Some k.
Proof.
  intros L. unfold text_key. now rewrite (read_text_integer_literal _ _ L).
Qed.

Lemma string_of_uint_head d :
  d <> Decimal.Nil ->
  exists c s, NilEmpty.string_of_uint d = String c s /\
              Ascii.eqb c "+" = false /\ Ascii.eqb c "-" = false.
Proof.
  destruct d; intros N; try (now elim N); cbn; eexists; eexists;
    (split; [reflexivity | split; reflexivity]).
Qed.

(** The decimal text of a positive key is read back as that key. *)
Lemma integer_literal_str_int k : 0 < k -> integer_literal (str_int k) = Some k.
Proof.
  destruct k as [|p|p]; try lia. intros _.
  unfold str_int. cbn [Z.to_int NilZero.string_of_int].
  pose proof (DecimalPos.Unsigned.to_uint_nonnil p) as N.
  pose proof (NilZero.usu _ N) as U.
  destruct (string_of_uint_head _ N) as (c & s & E & Hp & Hm).
  assert (NilZero.string_of_uint (Pos.to_uint p) = String c s) as E'
    by (rewrite <- E; unfold NilZero.string_of_uint;
        destruct (Pos.to_uint p); [now elim N | reflexivity ..]).
  rewrite E' in *. unfold integer_literal. rewrite Hp, Hm, U.
  cbn [option_map]. unfold Z.of_uint.
  now rewrite DecimalPos.Unsigned.of_to.
Qed.

Lemma next_id_pos ids : 0 < next_id ids.
Proof.
  unfold next_id. induction ids as [|i ids IH]; cbn [fold_right]; lia.
Qed.

Lemma find_app_last {A : Type} (f : A -> bool) l y :
  (forall x, In x l -> f x = false) ->
  find f (l ++ [y]) = if f y then Some y else None.
Proof.
  induction l as [|x l IH]; intros H; cbn; [reflexivity|].
  rewrite (H x) by now left.
  apply IH. intros z I. apply H. now right.
Qed.

(** The lookup finds the row that [add_customer] has just inserted. *)
Lemma query_inserted_customer db svc tx n f fa ni sh b a :
  query_customer
    (mkDatabase (customers db ++ [inserted_customer db n f fa ni sh b a])
                svc tx)
    (str_int (next_id (map Customer.id (customers db))))
  = Some (inserted_customer db n f fa ni sh b a).
Proof.
  unfold query_customer, integer_affinity.
  rewrite (text_key_integer_literal _ _
             (integer_literal_str_int _ (next_id_pos _))).
  cbn [customers]. rewrite find_app_last.
  - unfold inserted_customer. cbn [Customer.id]. now rewrite Z.eqb_refl.
  - intros x I. apply Z.eqb_neq.
    pose proof (next_id_fresh _ _ (in_map Customer.id _ _ I)). lia.
Qed.

(** ** Reading back what was added *)

(** C2, as amended: after a successful [add_customer], [get_customer] with
    the decimal text of the assigned key returns the block that shows the
    key, the six text fields exactly as they were given, and the birth date
    in ISO form; the ISO form is the submitted text whenever that text was
    zero-padded ([DDDD-DD-DD]). *)
Theorem get_customer_after_add today n f fa ni sh bs a db :
  fst (run (add_customer today n f fa ni sh bs a) db)
  = Returned "Customer added successfully." ->
  exists b db',
    strptime bs = Returned b /\
    run (add_customer today n f fa ni sh bs a) db
    = (Returned "Customer added successfully.", db') /\
    run (get_customer (str_int (next_id (map Customer.id (customers db))))) db'
    = (Returned
         (nl ++ "id: " ++ str_int (next_id (map Customer.id (customers db)))
             ++ nl ++ "Name: " ++ n
             ++ nl ++ "family: " ++ f
             ++ nl ++ "father_name: " ++ fa
             ++ nl ++ "national_id: " ++ ni
             ++ nl ++ "shenasname_id: " ++ sh
             ++ nl ++ "birth_date: " ++ isoformat b
             ++ nl ++ "Address: " ++ a ++ nl ++ nl),
       db') /\
    (zero_padded bs = true -> isoformat b = bs).
Proof.
  rewrite run_add_customer.
  destruct (strptime bs) as [b|e] eqn:P; [|discriminate].
  destruct (age today b <? 18); [discriminate|]. intros _.
  exists b. eexists. split; [reflexivity|]. split; [reflexivity|].
  split.
  - rewrite run_get_customer, query_inserted_customer. reflexivity.
  - intros Z. now apply isoformat_strptime.
Qed.

(** ** Malformed input *)

Lemma number_text_length t m :
  number_text t m -> (1 <= String.length t <= 2)%nat.
Proof. destruct 1; cbn; lia. Qed.

Lemma day_text_length t d :
  day_text t d -> (1 <= String.length t <= 2)%nat.
Proof.
  destruct 1 as [t d H|c H]; [now apply number_text_length in H | cbn; lia].
Qed.

Lemma length_append (s t : string) :
  String.length (s ++ t) = (String.length s + String.length t)%nat.
Proof. induction s as [|c s IH]; cbn; [reflexivity | now rewrite IH]. Qed.

(** Texts shorter than 8 or longer than 10 characters are rejected. *)
Lemma strptime_length s b :
  strptime s = Returned b -> (8 <= String.length s <= 10)%nat.
Proof.
  intros P.
  destruct (strptime_Returned s b P)
    as (c1 & c2 & c3 & c4 & mt & dt & -> & _ & _ & Hm & Hd & _).
  apply number_text_length in Hm. apply day_text_length in Hd.
  cbn [String.length]. rewrite length_append. cbn [String.length]. lia.
Qed.

Lemma strptime_outcome s :
  (exists b, strptime s = Returned b) \/ strptime s = Raised ValueError.
Proof.
  destruct (strptime s) as [b|[]]; [left; now exists b | now right].
Qed.

Lemma query_customer_plain db cid :
  read_text cid = PlainText -> query_customer db cid = None.
Proof.
  intros P. unfold query_customer, integer_affinity, text_key. now rewrite P.
Qed.

(** C9, as amended: a birth date text that [strptime] rejects (every text
    shorter than 8 or longer than 10 characters is one) makes [add_customer]
    raise [ValueError] out of the handler, with the store as it was.  A
    customer id never makes a handler raise: the three handlers that look a
    customer up return a string for every id text, and for an id text that
    is no numeric literal that string is "Customer not found." and the store
    is as it was. *)
Theorem malformed_input_outcomes today n f fa ni sh bs a cid ph sn db :
  (strptime bs = Raised ValueError ->
   run (add_customer today n f fa ni sh bs a) db = (Raised ValueError, db)) /\
  ((String.length bs < 8 \/ 10 < String.length bs)%nat ->
   run (add_customer today n f fa ni sh bs a) db = (Raised ValueError, db)) /\
  (exists m1 m2 m3 db',
     run (get_customer cid) db = (Returned m1, db) /\
     run (get_customer_services cid) db = (Returned m2, db) /\
     run (create_service cid ph sn) db = (Returned m3, db')) /\
  (read_text cid = PlainText ->
   run (get_customer cid) db = (Returned "Customer not found.", db) /\
   run (get_customer_services cid) db = (Returned "Customer not found.", db) /\
   run (create_service cid ph sn) db = (Returned "Customer not found.", db)).
Proof.
  assert (strptime bs = Raised ValueError ->
          run (add_customer today n f fa ni sh bs a) db
          = (Raised ValueError, db)) as R
    by (intros P; rewrite run_add_customer, P; reflexivity).
  split; [exact R|]. split; [|split].
  - intros L. apply R.
    destruct (strptime_outcome bs) as [[b P]|P]; [|exact P].
    apply strptime_length in P. lia.
  - rewrite run_get_customer, run_get_customer_services, run_create_service.
    destruct (query_customer db cid) as [c|].
    + destruct (Customer.services_count c >=? 10);
        do 4 eexists; repeat split.
    + do 4 eexists; repeat split.
  - intros P. pose proof (query_customer_plain db cid P) as Q.
    rewrite run_get_customer, run_get_customer_services, run_create_service, Q.
    repeat split.
Qed.

(** ** The counter and the service rows *)

Lemma find_app {A : Type} (f : A -> bool) l l' :
  find f (l ++ l') =
  match find f l with Some x => Some x | None => find f l' end.
Proof.
  induction l as [|x l IH]; cbn; [reflexivity|].
  destruct (f x); [reflexivity | exact IH].
Qed.

Lemma count_of_insert db svc tx n f fa ni sh b a k :
  count_of
    (mkDatabase (customers db ++ [inserted_customer db n f fa ni sh b a])
                svc tx) k
  = count_of db k.
Proof.
  unfold count_of. cbn [customers]. rewrite find_app.
  destruct (find _ (customers db)); [reflexivity|].
  cbn. destruct (_ =? k); reflexivity.
Qed.

Lemma count_of_bump db svc tx c n k :
  find (fun x => Customer.id x =? Customer.id c) (customers db) = Some c ->
  count_of (mkDatabase (map (bump (Customer.id c) n) (customers db)) svc tx) k
  = if Customer.id c =? k then n else count_of db k.
Proof.
  intros F. unfold count_of. cbn [customers].
  destruct (Customer.id c =? k) eqn:E.
  - apply Z.eqb_eq in E. subst k.
    now rewrite (find_bump_same _ _ _ _ F).
  - apply Z.eqb_neq in E. now rewrite find_bump_other.
Qed.

Lemma query_customer_find db cid c :
  query_customer db cid = Some c ->
  find (fun x => Customer.id x =? Customer.id c) (customers db) = Some c.
Proof.
  intros Q. pose proof (query_customer_found _ _ _ Q) as [_ L].
  unfold query_customer, integer_affinity in Q. now rewrite L in Q.
Qed.

(** One request: the counter of every key and the number of service rows
    that reference it grow by one when the request is a successful
    [create_service] for that key, and stay as they are otherwise. *)
Lemma serve_counts r db k :
  count_of (snd (serve r db)) k
  = count_of db k + Z.of_nat (created k r (fst (serve r db))) /\
  List.length (services_of (snd (serve r db)) k)
  = (List.length (services_of db k) + created k r (fst (serve r db)))%nat.
Proof.
  destruct r as [t n f fa ni sh bs a | cid | cid ph sn | cid];
    unfold serve, handler.
  - rewrite run_add_customer.
    destruct (strptime bs) as [b|e]; [|cbn; split; lia].
    destruct (age t b <? 18); [cbn; split; lia|].
    cbn [fst snd created]. rewrite count_of_insert.
    unfold services_of. cbn [services]. split; lia.
  - rewrite run_get_customer.
    destruct (query_customer db cid); cbn; split; lia.
  - rewrite run_create_service.
    destruct (query_customer db cid) as [c|] eqn:Q.
    + pose proof (query_customer_found _ _ _ Q) as [_ L].
      pose proof (query_customer_find _ _ _ Q) as F.
      destruct (Customer.services_count c >=? 10).
      * cbn [fst snd created]. rewrite L.
        replace (String.eqb maximum_reached service_created) with false
          by reflexivity.
        rewrite andb_false_r. split; lia.
      * cbn [fst snd created]. rewrite L, (count_of_bump _ _ _ _ _ _ F).
        replace (String.eqb service_created service_created) with true
          by reflexivity.
        rewrite andb_true_r.
        unfold services_of. cbn [services]. rewrite filter_app, length_app.
        cbn [filter inserted_service Service.customer_id value_eqb].
        unfold count_of.
        destruct (Customer.id c =? k) eqn:E.
        -- apply Z.eqb_eq in E. subst k. rewrite F, ?Z.eqb_refl.
           cbn. split; lia.
        -- rewrite ?(Z.eqb_sym k), ?E. cbn. split; lia.
    + cbn [fst snd created].
      destruct (text_key cid) as [k'|]; [|split; lia].
      replace (String.eqb customer_not_found service_created) with false
        by reflexivity.
      rewrite andb_false_r. split; lia.
  - rewrite run_get_customer_services.
    destruct (query_customer db cid); cbn; split; lia.
Qed.

Lemma serve_list_cons r rs db :
  serve_list (r :: rs) db
  = (fst (serve r db) :: fst (serve_list rs (snd (serve r db))),
     snd (serve_list rs (snd (serve r db)))).
Proof.
  cbn [serve_list]. destruct (serve r db) as [o db1]. cbn [fst snd].
  destruct (serve_list rs db1); reflexivity.
Qed.

(** The same over a sequence of requests. *)
Lemma serve_list_counts rs : forall db k,
  count_of (snd (serve_list rs db)) k
  = count_of db k + Z.of_nat (created_for k rs (fst (serve_list rs db))) /\
  List.length (services_of (snd (serve_list rs db)) k)
  = (List.length (services_of db k)
     + created_for k rs (fst (serve_list rs db)))%nat.
Proof.
  induction rs as [|r rs IH]; intros db k.
  - cbn. split; lia.
  - rewrite serve_list_cons. cbn [fst snd created_for].
    destruct (IH (snd (serve r db)) k) as [C S].
    destruct (serve_counts r db k) as [C1 S1].
    rewrite C, S, C1, S1. split; lia.
Qed.

(** Invariants of the reachable states are proved over one request. *)
Lemma serve_list_invariant (P : Database -> Prop) :
  (forall r db, P db -> P (snd (serve r db))) ->
  forall rs db, P db -> P (snd (serve_list rs db)).
Proof.
  intros Step. induction rs as [|r rs IH]; intros db H; [exact H|].
  rewrite serve_list_cons. cbn [snd]. apply IH, Step, H.
Qed.

Lemma reachable_invariant (P : Database -> Prop) :
  P empty_db ->
  (forall r db, P db -> P (snd (serve r db))) ->
  forall db, reachable db -> P db.
Proof.
  intros H0 Step db [rs ->]. now apply serve_list_invariant.
Qed.

(** What one request does to the table of customers. *)
Lemma serve_customers r db :
  customers (snd (serve r db)) = customers db \/
  (exists n f fa ni sh b a,
     customers (snd (serve r db))
     = (customers db ++ [inserted_customer db n f fa ni sh b a])%list) \/
  (exists c,
     In c (customers db) /\ Customer.services_count c < 10 /\
     customers (snd (serve r db))
     = map (bump (Customer.id c) (Customer.services_count c + 1))
           (customers db)).
Proof.
  destruct r as [t n f fa ni sh bs a | cid | cid ph sn | cid];
    unfold serve, handler.
  - rewrite run_add_customer.
    destruct (strptime bs) as [b|e]; [|now left].
    destruct (age t b <? 18); [now left|].
    right; left. now exists n, f, fa, ni, sh, b, a.
  - rewrite run_get_customer.
    destruct (query_customer db cid); now left.
  - rewrite run_create_service.
    destruct (query_customer db cid) as [c|] eqn:Q; [|now left].
    destruct (Customer.services_count c >=? 10) eqn:G; [now left|].
    right; right. exists c.
    pose proof (query_customer_found _ _ _ Q) as [I _].
    repeat split; [assumption | lia].
  - rewrite run_get_customer_services.
    destruct (query_customer db cid); now left.
Qed.

(** In a reachable state no two customers share a key. *)
Lemma reachable_NoDup db :
  reachable db -> NoDup (map Customer.id (customers db)).
Proof.
  revert db. apply reachable_invariant; [constructor|].
  intros r db H.
  destruct (serve_customers r db)
    as [-> | [(n & f & fa & ni & sh & b & a & ->) | (c & _ & _ & ->)]].
  - exact H.
  - rewrite map_app. apply NoDup_app; [exact H | repeat constructor; easy |].
    intros k I [<- | []]. apply next_id_fresh in I.
    unfold inserted_customer in I. cbn [Customer.id] in I. lia.
  - now rewrite map_id_bump.
Qed.

(** C5: the counter is the number of services.  After any sequence of
    requests from the empty store, the [services_count] of every customer is
    the number of successful [create_service] calls made for that customer,
    and is the number of service rows that reference it.  A customer that
    has just been added has the count 0, a successful [create_service] raises
    the count of its customer by exactly one, and no request lowers any
    count. *)
Theorem services_count_counts_services rs c :
  In c (customers (snd (serve_list rs empty_db))) ->
  (Customer.services_count c
   = Z.of_nat (created_for (Customer.id c) rs (fst (serve_list rs empty_db)))
   /\
   Customer.services_count c
   = Z.of_nat (List.length
                 (customer_services (snd (serve_list rs empty_db)) c))) /\
  (forall today n f fa ni sh bs a db db',
     run (add_customer today n f fa ni sh bs a) db
     = (Returned "Customer added successfully.", db') ->
     exists c',
       query_customer db' (str_int (next_id (map Customer.id (customers db))))
       = Some c' /\
       Customer.services_count c' = 0) /\
  (forall cid ph sn db db' k,
     run (create_service cid ph sn) db
     = (Returned "Service created successfully.", db') ->
     text_key cid = Some k ->
     count_of db' k = count_of db k + 1) /\
  (forall r db k, count_of db k <= count_of (snd (serve r db)) k).
Proof.
  intros I. split; [|split; [|split]].
  - assert (reachable (snd (serve_list rs empty_db))) as R by now exists rs.
    pose proof (find_NoDup _ _ (reachable_NoDup _ R) I) as F.
    destruct (serve_list_counts rs empty_db (Customer.id c)) as [C S].
    unfold count_of in C at 1. rewrite F in C.
    change (count_of empty_db (Customer.id c)) with 0 in C.
    change (services_of empty_db (Customer.id c)) with (@nil Service.t) in S.
    unfold customer_services. unfold services_of in S.
    cbn [List.length] in S. rewrite S. lia.
  - intros today n f fa ni sh bs a db db'. rewrite run_add_customer.
    destruct (strptime bs) as [b|e]; [|discriminate].
    destruct (age today b <? 18); [discriminate|].
    intros [= <-]. eexists. split; [apply query_inserted_customer|].
    reflexivity.
  - intros cid ph sn db db' k E L.
    destruct (serve_counts (CreateService cid ph sn) db k) as [C _].
    unfold serve, handler in C. rewrite E in C. cbn [fst snd created] in C.
    rewrite L, Z.eqb_refl in C. exact C.
  - intros r db k. destruct (serve_counts r db k) as [C _]. lia.
Qed.

(** ** The limit of ten services *)

Lemma targets_spec k r :
  targets k r = true ->
  exists cid ph sn, r = CreateService cid ph sn /\ integer_literal cid = Some k.
Proof.
  destruct r as [| |cid ph sn|]; cbn; try discriminate.
  destruct (integer_literal cid) as [k'|] eqn:L; [|discriminate].
  intros E. apply Z.eqb_eq in E. subst k'. now exists cid, ph, sn.
Qed.

Lemma query_customer_literal db cid k :
  text_key cid = Some k ->
  query_customer db cid = find (fun x => Customer.id x =? k) (customers db).
Proof. intros L. unfold query_customer, integer_affinity. now rewrite L. Qed.

(** While the count stays within the limit, every call for the customer
    succeeds, adds one service row and raises the count by one. *)
Lemma create_services_succeed k : forall rs db c,
  find (fun x => Customer.id x =? k) (customers db) = Some c ->
  Customer.services_count c + Z.of_nat (List.length rs) <= 10 ->
  forallb (targets k) rs = true ->
  fst (serve_list rs db) = repeat (Returned service_created) (List.length rs) /\
  (exists c',
     find (fun x => Customer.id x =? k) (customers (snd (serve_list rs db)))
     = Some c' /\
     Customer.services_count c'
     = Customer.services_count c + Z.of_nat (List.length rs)) /\
  List.length (services (snd (serve_list rs db)))
  = (List.length (services db) + List.length rs)%nat.
Proof.
  induction rs as [|r rs IH]; intros db c F B T.
  - cbn. split; [reflexivity|]. split; [|lia].
    exists c. split; [assumption | lia].
  - cbn [forallb] in T. apply andb_true_iff in T. destruct T as [Tr T].
    destruct (targets_spec _ _ Tr) as (cid & ph & sn & -> & L).
    cbn [List.length] in B.
    pose proof (find_some _ _ F) as [_ Ek]. apply Z.eqb_eq in Ek.
    assert (serve (CreateService cid ph sn) db
            = (Returned service_created,
               mkDatabase
                 (map (bump k (Customer.services_count c + 1)) (customers db))
                 (services db ++ [inserted_service db c ph sn])
                 (S (transactions db)))) as E.
    { unfold serve, handler.
      rewrite run_create_service,
        (query_customer_literal _ _ _ (text_key_integer_literal _ _ L)), F.
      assert ((Customer.services_count c >=? 10) = false) as ->
        by (rewrite Z.geb_leb; apply Z.leb_gt; lia).
      now rewrite Ek. }
    rewrite serve_list_cons, E. cbn [fst snd].
    pose proof (find_bump_same k (Customer.services_count c + 1) _ _ F) as F'.
    match goal with
    | |- context [serve_list rs ?d] =>
        destruct (IH d (Customer.with_services_count
                          (Customer.services_count c + 1) c) F') as (O & C & S);
        [cbn [Customer.with_services_count Customer.services_count]; lia
        | exact T | ]
    end.
    rewrite O. split; [reflexivity|]. split.
    + destruct C as (c' & Fc & Cc). exists c'. split; [exact Fc|].
      rewrite Cc.
      cbn [Customer.with_services_count Customer.services_count List.length].
      lia.
    + rewrite S. cbn [services List.length]. rewrite length_app.
      cbn [List.length]. lia.
Qed.

Lemma serve_count_bound r db :
  (forall c, In c (customers db) -> Customer.services_count c <= 10) ->
  forall c, In c (customers (snd (serve r db))) ->
            Customer.services_count c <= 10.
Proof.
  intros H.
  destruct (serve_customers r db)
    as [-> | [(n & f & fa & ni & sh & b & a & ->) | (c0 & I0 & L0 & ->)]].
  - exact H.
  - intros c I. apply in_app_or in I. destruct I as [I | [<- | []]].
    + now apply H.
    + cbn. lia.
  - intros c I. apply in_map_iff in I. destruct I as (x & <- & I).
    unfold bump. destruct (Customer.id x =? Customer.id c0).
    + cbn. lia.
    + now apply H.
Qed.

(** C4: for a customer that has no services yet, ten successive
    [create_service] calls all succeed, and the eleventh returns "Maximum
    number of services reached for this customer." and leaves the store as
    it was, with ten more service rows than at the start and the count 10.
    In every reachable state the [services_count] of every customer is at
    most 10. *)
Theorem ten_services_then_maximum db k c rs cid ph sn :
  find (fun x => Customer.id x =? k) (customers db) = Some c ->
  Customer.services_count c = 0 ->
  List.length rs = 10%nat ->
  forallb (targets k) rs = true ->
  integer_literal cid = Some k ->
  (fst (serve_list rs db)
   = repeat (Returned "Service created successfully.") 10 /\
   serve (CreateService cid ph sn) (snd (serve_list rs db))
   = (Returned "Maximum number of services reached for this customer.",
      snd (serve_list rs db)) /\
   List.length (services (snd (serve_list rs db)))
   = (List.length (services db) + 10)%nat /\
   count_of (snd (serve_list rs db)) k = 10) /\
  (forall db', reachable db' ->
   forall c', In c' (customers db') -> Customer.services_count c' <= 10).
Proof.
  intros F C0 Len T L. split.
  - destruct (create_services_succeed k rs db c F) as (O & (c' & F' & C') & S);
      [rewrite C0, Len; lia | exact T |].
    rewrite Len in O, S, C'. rewrite C0 in C'.
    split; [exact O|]. split; [|split; [exact S|]].
    + unfold serve, handler.
      rewrite run_create_service,
        (query_customer_literal _ _ _ (text_key_integer_literal _ _ L)), F'.
      assert ((Customer.services_count c' >=? 10) = true) as ->
        by (rewrite Z.geb_leb; apply Z.leb_le; lia).
      reflexivity.
    + unfold count_of. rewrite F'. lia.
  - apply (reachable_invariant
             (fun d => forall x, In x (customers d) ->
                                 Customer.services_count x <= 10)).
    + intros x [].
    + exact serve_count_bound.
Qed.

(** * Further properties of the handlers *)

(** ** What one request does *)

Lemma fold_append_head {A : Type} (f : A -> string) l c s :
  exists t,
    fold_left (fun acc x => acc ++ f x) l (String c s) = String c t.
Proof.
  revert s. induction l as [|x l IH]; intros s; cbn [fold_left].
  - now exists s.
  - cbn [append]. apply IH.
Qed.

(** A request leaves the store as it was and answers with neither success
    message, or adds a customer, or adds a service to a customer below the
    limit. *)
Lemma serve_cases r db :
  (snd (serve r db) = db /\
   fst (serve r db) <> Returned customer_added /\
   fst (serve r db) <> Returned service_created) \/
  (exists n f fa ni sh b a,
     fst (serve r db) = Returned customer_added /\
     valid_date (year b) (month b) (day b) = true /\
     snd (serve r db)
     = mkDatabase (customers db ++ [inserted_customer db n f fa ni sh b a])
                  (services db) (S (transactions db))) \/
  (exists c ph sn,
     fst (serve r db) = Returned service_created /\
     find (fun x => Customer.id x =? Customer.id c) (customers db) = Some c /\
     Customer.services_count c < 10 /\
     snd (serve r db)
     = mkDatabase
         (map (bump (Customer.id c) (Customer.services_count c + 1))
              (customers db))
         (services db ++ [inserted_service db c ph sn])
         (S (transactions db))).
Proof.
  destruct r as [t n f fa ni sh bs a | cid | cid ph sn | cid];
    unfold serve, handler.
  - rewrite run_add_customer.
    destruct (strptime bs) as [b|e] eqn:P.
    + destruct (age t b <? 18).
      * left. repeat split; discriminate.
      * right; left. exists n, f, fa, ni, sh, b, a.
        repeat split.
        now destruct (strptime_Returned _ _ P) as (? & ? & ? & ? & ? & ? & H);
          destruct H as (_ & _ & _ & _ & _ & V).
    + left. repeat split; discriminate.
  - rewrite run_get_customer. left.
    destruct (query_customer db cid); repeat split; discriminate.
  - rewrite run_create_service.
    destruct (query_customer db cid) as [c|] eqn:Q.
    + destruct (Customer.services_count c >=? 10) eqn:G.
      * left. repeat split; discriminate.
      * right; right. exists c, ph, sn.
        pose proof (query_customer_find _ _ _ Q) as F.
        repeat split; [exact F | lia].
    + left. repeat split; discriminate.
  - rewrite run_get_customer_services. left.
    destruct (query_customer db cid) as [c|].
    + destruct (fold_append_head format_service (customer_services db c)
                  "010"%char (format_customer_head c)) as [t E].
      unfold nl. cbn [append]. rewrite E.
      repeat split; discriminate.
    + repeat split; discriminate.
Qed.

(** X1: [get_customer] and [get_customer_services] never raise and never
    change the store, whatever the id; and the answer is "Customer not found."
    exactly when no row carries the key. *)
Theorem read_handlers_leave_store cid db :
  exists m1 m2,
    run (get_customer cid) db = (Returned m1, db) /\
    run (get_customer_services cid) db = (Returned m2, db) /\
    (m1 = "Customer not found." <-> absent db cid) /\
    (m2 = "Customer not found." <-> absent db cid).
Proof.
  rewrite run_get_customer, run_get_customer_services.
  destruct (query_customer db cid) as [c|] eqn:Q.
  - eexists. eexists. split; [reflexivity|]. split; [reflexivity|].
    assert (~ absent db cid) as N
      by (intros A; apply query_customer_absent in A; congruence).
    split; (split; [|intros A; now elim N]).
    + unfold nl. cbn [append]. discriminate.
    + destruct (fold_append_head format_service (customer_services db c)
                  "010"%char (format_customer_head c)) as [t E].
      unfold nl. cbn [append]. rewrite E. discriminate.
  - apply query_customer_absent in Q.
    exists customer_not_found, customer_not_found.
    repeat split; trivial.
Qed.

(** X2: the answer tells whether the store changed.  A request whose answer
    is one of the two success messages has committed exactly one
    transaction; after any other answer, and after an exception, the store
    is as it was. *)
Theorem store_changes_only_on_success r db :
  ((fst (serve r db) = Returned "Customer added successfully." \/
    fst (serve r db) = Returned "Service created successfully.") ->
   transactions (snd (serve r db)) = S (transactions db)) /\
  (fst (serve r db) <> Returned "Customer added successfully." ->
   fst (serve r db) <> Returned "Service created successfully." ->
   snd (serve r db) = db).
Proof.
  destruct (serve_cases r db)
    as [(E & N1 & N2)
       | [(n & f & fa & ni & sh & b & a & R & _ & E)
         | (c & ph & sn & R & _ & _ & E)]].
  - split; [intros [H|H]; [now elim N1 | now elim N2] | now intros _ _].
  - split; [intros _; now rewrite E | intros N; now elim N].
  - split; [intros _; now rewrite E | intros _ N; now elim N].
Qed.

(** ** Rows are never removed or rewritten *)

Lemma same_person_refl c : same_person c c.
Proof. unfold same_person. now destruct c. Qed.

Lemma same_person_trans c1 c2 c3 :
  same_person c1 c2 -> same_person c2 c3 -> same_person c1 c3.
Proof.
  unfold same_person. intros H12 H23. rewrite H23 at 1. rewrite H12 at 1.
  reflexivity.
Qed.

Lemma same_person_bump k n c : same_person c (bump k n c).
Proof.
  unfold bump. destruct (Customer.id c =? k).
  - unfold same_person. reflexivity.
  - apply same_person_refl.
Qed.

Lemma Forall2_same_person_refl l : Forall2 same_person l l.
Proof.
  induction l as [|c l IH]; constructor; [apply same_person_refl | exact IH].
Qed.

Lemma Forall2_same_person_trans l1 : forall l2 l3,
  Forall2 same_person l1 l2 -> Forall2 same_person l2 l3 ->
  Forall2 same_person l1 l3.
Proof.
  induction l1 as [|c1 l1 IH]; intros l2 l3 H12 H23.
  - inversion H12; subst. inversion H23; subst. constructor.
  - inversion H12 as [|? c2 ? l2' Hc Hl]; subst.
    inversion H23 as [|? c3 ? l3' Hc' Hl']; subst.
    constructor; [eapply same_person_trans; eassumption | eapply IH; eassumption].
Qed.

Lemma evolves_refl db : evolves db db.
Proof.
  split.
  - exists (customers db), []. rewrite app_nil_r.
    split; [reflexivity | apply Forall2_same_person_refl].
  - exists []. now rewrite app_nil_r.
Qed.

Lemma evolves_trans db1 db2 db3 :
  evolves db1 db2 -> evolves db2 db3 -> evolves db1 db3.
Proof.
  intros [(cs & xs & E & F) (ys & S)] [(cs' & xs' & E' & F') (ys' & S')].
  split.
  - rewrite E in F'. apply Forall2_app_inv_l in F'.
    destruct F' as (ca & cb & Fa & Fb & ->).
    exists ca, (cb ++ xs')%list. rewrite E', <- app_assoc.
    split; [reflexivity | eapply Forall2_same_person_trans; eassumption].
  - exists (ys ++ ys')%list. now rewrite S', S, <- app_assoc.
Qed.

Lemma serve_evolves r db : evolves db (snd (serve r db)).
Proof.
  destruct (serve_cases r db)
    as [(E & _)
       | [(n & f & fa & ni & sh & b & a & _ & _ & E)
         | (c & ph & sn & _ & _ & _ & E)]]; rewrite E.
  - apply evolves_refl.
  - split; cbn [customers services].
    + eexists. eexists. split; [reflexivity | apply Forall2_same_person_refl].
    + exists []. now rewrite app_nil_r.
  - split; cbn [customers services].
    + eexists. exists []. rewrite app_nil_r. split; [reflexivity|].
      clear E. generalize (customers db) as l.
      induction l as [|x l IH]; cbn [map]; constructor;
        [apply same_person_bump | exact IH].
    + eexists. reflexivity.
Qed.

Lemma serve_list_evolves rs : forall db, evolves db (snd (serve_list rs db)).
Proof.
  induction rs as [|r rs IH]; intros db; [apply evolves_refl|].
  rewrite serve_list_cons. cbn [snd].
  eapply evolves_trans; [apply serve_evolves | apply IH].
Qed.

Lemma same_person_id c c' : same_person c c' -> Customer.id c' = Customer.id c.
Proof. unfold same_person. intros ->. reflexivity. Qed.

(** A row that the lookup finds is found again, as the same person, in a
    store that has evolved. *)
Lemma find_evolves db db' k c :
  evolves db db' ->
  find (fun x => Customer.id x =? k) (customers db) = Some c ->
  exists c',
    find (fun x => Customer.id x =? k) (customers db') = Some c' /\
    same_person c c'.
Proof.
  intros [(cs & xs & -> & F) _]. rewrite find_app.
  induction F as [|x x' l l' Hx Hl IH]; cbn [find]; [discriminate|].
  rewrite (same_person_id _ _ Hx).
  destruct (Customer.id x =? k).
  - intros [= ->]. now exists x'.
  - exact IH.
Qed.

Lemma query_customer_evolves db db' cid c :
  evolves db db' ->
  query_customer db cid = Some c ->
  exists c', query_customer db' cid = Some c' /\ same_person c c'.
Proof.
  intros E Q. pose proof (query_customer_found _ _ _ Q) as [_ L].
  rewrite (query_customer_literal db _ _ L) in Q.
  rewrite (query_customer_literal db' _ _ L).
  now apply find_evolves with (db := db).
Qed.

(** X3: rows are never removed or rewritten.  After any sequence of
    requests every customer row is still at its place with the same key and
    the same personal fields (only [services_count] may differ), and every
    service row is still at its place, unchanged. *)
Theorem rows_are_never_removed rs db :
  (forall i c,
     nth_error (customers db) i = Some c ->
     exists c',
       nth_error (customers (snd (serve_list rs db))) i = Some c' /\
       c' = Customer.with_services_count (Customer.services_count c') c) /\
  (forall i s,
     nth_error (services db) i = Some s ->
     nth_error (services (snd (serve_list rs db))) i = Some s).
Proof.
  destruct (serve_list_evolves rs db) as [(cs & xs & -> & F) (ys & ->)].
  split.
  - induction F as [|x x' l l' Hx Hl IH]; intros i c.
    + destruct i; discriminate.
    + destruct i as [|i]; cbn [nth_error app].
      * intros [= <-]. now exists x'.
      * apply IH.
  - intros i s H. rewrite nth_error_app1; [exact H|].
    apply nth_error_Some. congruence.
Qed.

(** X4: what [get_customer] shows of a customer never changes.  Once an id
    is found, [get_customer] returns the same block for it after any
    sequence of further requests. *)
Theorem get_customer_is_stable rs db cid c :
  query_customer db cid = Some c ->
  run (get_customer cid) (snd (serve_list rs db))
  = (fst (run (get_customer cid) db), snd (serve_list rs db)).
Proof.
  intros Q.
  destruct (query_customer_evolves _ _ _ _ (serve_list_evolves rs db) Q)
    as (c' & Q' & P).
  rewrite !run_get_customer, Q, Q'. cbn [fst].
  unfold same_person in P. rewrite P. reflexivity.
Qed.

(** X5: the limit, once reached, stays reached.  When [create_service]
    answers "Maximum number of services reached for this customer.", it
    gives the same answer for that customer, and changes nothing, after any
    sequence of further requests. *)
Theorem maximum_is_permanent rs db cid ph sn ph' sn' :
  fst (run (create_service cid ph sn) db)
  = Returned "Maximum number of services reached for this customer." ->
  run (create_service cid ph' sn') (snd (serve_list rs db))
  = (Returned "Maximum number of services reached for this customer.",
     snd (serve_list rs db)).
Proof.
  rewrite !run_create_service.
  destruct (query_customer db cid) as [c|] eqn:Q; [|discriminate].
  destruct (Customer.services_count c >=? 10) eqn:G; [|discriminate].
  intros _.
  destruct (query_customer_evolves _ _ _ _ (serve_list_evolves rs db) Q)
    as (c' & Q' & P).
  rewrite Q'.
  pose proof (query_customer_find _ _ _ Q) as F.
  pose proof (query_customer_find _ _ _ Q') as F'.
  rewrite (same_person_id _ _ P) in F'.
  destruct (serve_list_counts rs db (Customer.id c)) as [C _].
  unfold count_of in C. rewrite F, F' in C.
  assert ((Customer.services_count c' >=? 10) = true) as ->
    by (rewrite Z.geb_leb in *; apply Z.leb_le; apply Z.leb_le in G; lia).
  reflexivity.
Qed.

(** ** Creating a service and listing it *)

(** X6: a service that has just been created is the last of the listing.
    After a successful [create_service], [get_customer_services] for the same
    id returns what it returned before, followed by the block of the new
    service with its key, name and phone number. *)
Theorem new_service_is_listed_last cid ph sn db db' old :
  run (create_service cid ph sn) db
  = (Returned "Service created successfully.", db') ->
  fst (run (get_customer_services cid) db) = Returned old ->
  run (get_customer_services cid) db'
  = (Returned
       (old ++ "Service ID: "
            ++ str_int (next_id (map Service.id (services db))) ++ nl
            ++ "Name: " ++ sn ++ nl
            ++ "Phone Number: " ++ ph ++ nl ++ nl),
     db').
Proof.
  rewrite run_create_service, !run_get_customer_services.
  destruct (query_customer db cid) as [c|] eqn:Q; [|discriminate].
  destruct (Customer.services_count c >=? 10); [discriminate|].
  intros [= <-]. cbn [fst]. intros [= <-].
  pose proof (query_customer_found _ _ _ Q) as [_ L].
  pose proof (query_customer_find _ _ _ Q) as F.
  rewrite (query_customer_literal _ _ _ L). cbn [customers].
  rewrite (find_bump_same _ (Customer.services_count c + 1) _ _ F).
  unfold customer_services. cbn [services].
  rewrite filter_app.
  cbn [filter inserted_service Service.customer_id value_eqb
       Customer.with_services_count Customer.id].
  rewrite Z.eqb_refl, fold_left_app. reflexivity.
Qed.

(** ** Invariants of the reachable states *)

Lemma reachable_references db :
  reachable db ->
  forall s, In s (services db) ->
  exists c, In c (customers db) /\
            Service.customer_id s = Integer (Customer.id c).
Proof.
  revert db.
  apply (reachable_invariant
           (fun d => forall s, In s (services d) ->
                     exists c, In c (customers d) /\
                               Service.customer_id s = Integer (Customer.id c)));
    [intros s []|].
  intros r db H.
  destruct (serve_cases r db)
    as [(E & _)
       | [(n & f & fa & ni & sh & b & a & _ & _ & E)
         | (c & ph & sn & _ & F & _ & E)]]; rewrite E;
    cbn [customers services]; clear E.
  - exact H.
  - intros s I. destruct (H s I) as (c & Ic & Ec).
    exists c. split; [apply in_or_app; now left | exact Ec].
  - assert (forall x, In x (customers db) ->
              exists x',
                In x' (map (bump (Customer.id c)
                                 (Customer.services_count c + 1))
                           (customers db)) /\
                Customer.id x' = Customer.id x) as B.
    { intros x Ix. eexists. split; [apply in_map; exact Ix|].
      apply same_person_id, same_person_bump. }
    intros s I. apply in_app_or in I. destruct I as [I | [<- | []]].
    + destruct (H s I) as (x & Ix & Ex).
      destruct (B x Ix) as (x' & Ix' & Ex').
      exists x'. split; [exact Ix' | now rewrite Ex'].
    + apply find_some in F. destruct F as [Ic _].
      destruct (B c Ic) as (x' & Ix' & Ex').
      exists x'. split; [exact Ix' | cbn; now rewrite Ex'].
Qed.

Lemma fold_max_seq n : forall start,
  fold_right Z.max 0 (map Z.of_nat (seq start n))
  = match n with
    | O => 0
    | S _ => Z.of_nat start + Z.of_nat n - 1
    end.
Proof.
  induction n as [|n IH]; intros start; [reflexivity|].
  cbn [seq map fold_right]. rewrite IH. destruct n; lia.
Qed.

Lemma next_id_keys n : next_id (keys n) = Z.of_nat (S n).
Proof.
  unfold next_id, keys. rewrite fold_max_seq. destruct n; lia.
Qed.

Lemma keys_S n : keys (S n) = (keys n ++ [Z.of_nat (S n)])%list.
Proof. unfold keys. now rewrite seq_S, map_app. Qed.

(** X8: keys are given out in order.  In every reachable state the keys of
    the customer rows are 1, 2, ..., n in the order of their insertion, and
    so are the keys of the service rows. *)
Theorem keys_are_sequential db :
  reachable db ->
  map Customer.id (customers db) = keys (List.length (customers db)) /\
  map Service.id (services db) = keys (List.length (services db)).
Proof.
  revert db.
  apply (reachable_invariant
           (fun d =>
              map Customer.id (customers d) = keys (List.length (customers d))
              /\ map Service.id (services d)
                 = keys (List.length (services d))));
    [split; reflexivity|].
  intros r db [Hc Hs].
  destruct (serve_cases r db)
    as [(E & _)
       | [(n & f & fa & ni & sh & b & a & _ & _ & E)
         | (c & ph & sn & _ & _ & _ & E)]]; rewrite E;
    cbn [customers services]; clear E.
  - now split.
  - split; [|exact Hs].
    rewrite map_app, length_app, Nat.add_comm. cbn [List.length Nat.add map].
    unfold inserted_customer. cbn [Customer.id].
    now rewrite keys_S, Hc, next_id_keys.
  - split.
    + now rewrite map_id_bump, length_map.
    + rewrite map_app, length_app, Nat.add_comm. cbn [List.length Nat.add map].
      unfold inserted_service. cbn [Service.id].
      now rewrite keys_S, Hs, next_id_keys.
Qed.

(** X9: the customer rows are well formed.  In every reachable state the
    birth date of every customer is a calendar date (year 1 to 9999, a month
    of the year, a day of that month) and its [services_count] is not
    negative. *)
Theorem customers_are_well_formed db :
  reachable db ->
  forall c, In c (customers db) ->
  valid_date (year (Customer.birth_date c)) (month (Customer.birth_date c))
             (day (Customer.birth_date c)) = true /\
  0 <= Customer.services_count c.
Proof.
  revert db.
  apply (reachable_invariant
           (fun d => forall c, In c (customers d) ->
                     valid_date (year (Customer.birth_date c))
                                (month (Customer.birth_date c))
                                (day (Customer.birth_date c)) = true /\
                     0 <= Customer.services_count c));
    [intros c []|].
  intros r db H.
  destruct (serve_cases r db)
    as [(E & _)
       | [(n & f & fa & ni & sh & b & a & _ & V & E)
         | (c0 & ph & sn & _ & F & _ & E)]]; rewrite E;
    cbn [customers services]; clear E.
  - exact H.
  - intros c I. apply in_app_or in I. destruct I as [I | [<- | []]].
    + now apply H.
    + cbn. split; [exact V | lia].
  - apply find_some in F. destruct F as [I0 _].
    intros c I. apply in_map_iff in I. destruct I as (x & <- & Ix).
    destruct (H x Ix) as [Vx Cx]. destruct (H c0 I0) as [_ C0].
    unfold bump. destruct (Customer.id x =? Customer.id c0).
    + cbn. split; [exact Vx | lia].
    + now split.
Qed.

(** ** Printing a date and reading it back *)

(** Case analysis on an integer [z] known to lie between two numerals. *)
Ltac enum_between z H tac :=
  match type of H with
  | ?lo <= z <= ?hi =>
      let b := eval compute in (Z.leb lo hi) in
      match b with
      | true =>
          let H' := fresh in
          let lo' := eval compute in (lo + 1) in
          assert (z = lo \/ lo' <= z <= hi) as H' by lia; clear H;
          destruct H' as [-> | H]; [tac | enum_between z H tac]
      | false => exfalso; lia
      end
  end.

Lemma digit_char_digit k :
  0 <= k <= 9 ->
  is_digit (digit_char k) = true /\ digit_val (digit_char k) = k.
Proof. intros H. enum_between k H ltac:(split; reflexivity). Qed.

Lemma match_Y_pad4 y r :
  0 <= y <= 9999 -> match_Y (pad4 y ++ r) = Some (y, r).
Proof.
  clear real_key.
  intros H. unfold pad4, pad2. cbn [append]. unfold match_Y.
  destruct (digit_char_digit (y / 1000 mod 10)) as [I1 V1]; [euclid|].
  destruct (digit_char_digit (y / 100 mod 10)) as [I2 V2]; [euclid|].
  destruct (digit_char_digit (y / 10 mod 10)) as [I3 V3]; [euclid|].
  destruct (digit_char_digit (y mod 10)) as [I4 V4]; [euclid|].
  rewrite I1, I2, I3, I4, V1, V2, V3, V4. cbn [andb].
  do 2 f_equal. euclid.
Qed.

Lemma alts_m_pad2 m r :
  1 <= m <= 12 ->
  exists others,
    alts_m (pad2 m ++ String "-" r) = (m, String "-" r) :: others.
Proof.
  intros H. enum_between m H ltac:(eexists; reflexivity).
Qed.

Lemma alts_d_pad2 d :
  1 <= d <= 31 ->
  exists others, alts_d (pad2 d) = (d, EmptyString) :: others.
Proof.
  intros H. enum_between d H ltac:(eexists; reflexivity).
Qed.

Lemma format_regex_match_isoformat y m d :
  0 <= y <= 9999 -> 1 <= m <= 12 -> 1 <= d <= 31 ->
  format_regex_match (isoformat (mkdate y m d)) = Some (y, m, d, EmptyString).
Proof.
  clear real_key.
  intros Hy Hm Hd. unfold isoformat, format_regex_match.
  cbn [year month day]. rewrite match_Y_pad4 by exact Hy.
  cbn [append match_dash]. rewrite Ascii.eqb_refl.
  destruct (alts_m_pad2 m (pad2 d) Hm) as [om ->].
  cbn [first_match fst snd match_dash]. rewrite Ascii.eqb_refl.
  destruct (alts_d_pad2 d Hd) as [od ->].
  reflexivity.
Qed.

Lemma valid_date_bounds y m d :
  valid_date y m d = true ->
  1 <= y <= 9999 /\ 1 <= m <= 12 /\ 1 <= d <= 31.
Proof.
  unfold valid_date, days_in_month. intros V.
  repeat (apply andb_true_iff in V; destruct V as [V ?]).
  destruct (m =? 2); [destruct (is_leap y)|];
    [| |destruct ((m =? 4) || (m =? 6) || (m =? 9) || (m =? 11))]; lia.
Qed.

(** X10: a date that is printed and read back is the same date.  For every
    calendar date, [strptime] accepts its ISO form, which is zero-padded,
    and returns the date; so the birth date that [get_customer] shows can be
    submitted to [add_customer] again and means the same day. *)
Theorem strptime_isoformat d :
  valid_date (year d) (month d) (day d) = true ->
  strptime (isoformat d) = Returned d /\ zero_padded (isoformat d) = true.
Proof.
  clear real_key.
  destruct d as [y m d]. cbn [year month day]. intros V.
  destruct (valid_date_bounds _ _ _ V) as (Hy & Hm & Hd).
  split.
  - unfold strptime.
    rewrite format_regex_match_isoformat by lia. now rewrite V.
  - unfold isoformat, pad4, pad2. cbn [year month day append].
    unfold zero_padded.
    destruct (digit_char_digit (y / 1000 mod 10)) as [-> _]; [euclid|].
    destruct (digit_char_digit (y / 100 mod 10)) as [-> _]; [euclid|].
    destruct (digit_char_digit (y / 10 mod 10)) as [-> _]; [euclid|].
    destruct (digit_char_digit (y mod 10)) as [-> _]; [euclid|].
    destruct (digit_char_digit (m / 10 mod 10)) as [-> _]; [euclid|].
    destruct (digit_char_digit (m mod 10)) as [-> _]; [euclid|].
    destruct (digit_char_digit (d / 10 mod 10)) as [-> _]; [euclid|].
    destruct (digit_char_digit (d mod 10)) as [-> _]; [euclid|].
    reflexivity.
Qed.

(** ** The age gate over time *)

Lemma age_monotone_today t1 t2 b :
  date_leb t1 t2 = true -> age t1 b <= age t2 b.
Proof.
  unfold age, pair_lt, date_leb; cbn [fst snd]. intros H.
  destruct (month t1 <? month b) eqn:A1;
    destruct (month t1 =? month b) eqn:A2;
    destruct (day t1 <? day b) eqn:A3;
    destruct (month t2 <? month b) eqn:B1;
    destruct (month t2 =? month b) eqn:B2;
    destruct (day t2 <? day b) eqn:B3;
    cbn [orb andb]; lia.
Qed.

Lemma age_monotone_birth t b1 b2 :
  date_leb b1 b2 = true -> age t b2 <= age t b1.
Proof.
  unfold age, pair_lt, date_leb; cbn [fst snd]. intros H.
  destruct (month t <? month b1) eqn:A1;
    destruct (month t =? month b1) eqn:A2;
    destruct (day t <? day b1) eqn:A3;
    destruct (month t <? month b2) eqn:B1;
    destruct (month t =? month b2) eqn:B2;
    destruct (day t <? day b2) eqn:B3;
    cbn [orb andb]; lia.
Qed.

(** X11: who is old enough stays old enough.  A call of [add_customer]
    that succeeds on one day succeeds, with the same arguments, on every
    later day. *)
Theorem acceptance_is_monotone_in_today t1 t2 n f fa ni sh bs a db :
  date_leb t1 t2 = true ->
  fst (run (add_customer t1 n f fa ni sh bs a) db)
  = Returned "Customer added successfully." ->
  fst (run (add_customer t2 n f fa ni sh bs a) db)
  = Returned "Customer added successfully.".
Proof.
  intros L. rewrite !run_add_customer.
  destruct (strptime bs) as [b|e]; [|discriminate].
  pose proof (age_monotone_today _ _ b L) as M.
  destruct (age t1 b <? 18) eqn:A1; [discriminate|]. intros _.
  assert ((age t2 b <? 18) = false) as -> by lia.
  reflexivity.
Qed.

(** X12: who is older than an accepted customer is accepted.  When
    [add_customer] succeeds for one birth date, it succeeds on the same day
    for every accepted text of an earlier or equal birth date. *)
Theorem acceptance_is_monotone_in_birth
    today n f fa ni sh a bs1 bs2 b1 b2 db :
  strptime bs1 = Returned b1 ->
  strptime bs2 = Returned b2 ->
  date_leb b1 b2 = true ->
  fst (run (add_customer today n f fa ni sh bs2 a) db)
  = Returned "Customer added successfully." ->
  fst (run (add_customer today n f fa ni sh bs1 a) db)
  = Returned "Customer added successfully.".
Proof.
  intros P1 P2 L. rewrite !run_add_customer, P1, P2.
  pose proof (age_monotone_birth today _ _ L) as M.
  destruct (age today b2 <? 18) eqn:A2; [discriminate|]. intros _.
  assert ((age today b1 <? 18) = false) as -> by lia.
  reflexivity.
Qed.

(** ** Services and their customers *)

Lemma filter_none {A : Type} (f : A -> bool) l :
  (forall x, In x l -> f x = false) -> filter f l = [].
Proof.
  induction l as [|x l IH]; intros H; cbn [filter]; [reflexivity|].
  rewrite (H x) by now left. apply IH. intros y I. apply H. now right.
Qed.

(** X7: every service belongs to a customer.  In every reachable state the
    [customer_id] of every service row is the integer key of a row of
    [customers], so that [get_customer_services] lists it for that
    customer. *)
Theorem services_reference_customers db s :
  reachable db ->
  In s (services db) ->
  exists c,
    In c (customers db) /\
    Service.customer_id s = Integer (Customer.id c) /\
    In s (customer_services db c).
Proof.
  intros R I. destruct (reachable_references db R s I) as (c & Ic & E).
  exists c. split; [exact Ic|]. split; [exact E|].
  unfold customer_services. apply filter_In. split; [exact I|].
  rewrite E. cbn. apply Z.eqb_refl.
Qed.

(** X13: a customer that has just been added has no services.  From a
    reachable state, after a successful [add_customer],
    [get_customer_services] with the assigned key returns the summary of the
    customer and no service block. *)
Theorem new_customer_has_no_services today n f fa ni sh bs a db db' :
  reachable db ->
  run (add_customer today n f fa ni sh bs a) db
  = (Returned "Customer added successfully.", db') ->
  run (get_customer_services
         (str_int (next_id (map Customer.id (customers db))))) db'
  = (Returned
       (nl ++ "Customer ID: "
           ++ str_int (next_id (map Customer.id (customers db))) ++ nl
           ++ "Name: " ++ n ++ nl
           ++ "Family: " ++ f ++ nl ++ nl
           ++ "Services:" ++ nl),
     db').
Proof.
  intros R. rewrite run_add_customer.
  destruct (strptime bs) as [b|e]; [|discriminate].
  destruct (age today b <? 18); [discriminate|].
  intros [= <-].
  rewrite run_get_customer_services, query_inserted_customer.
  assert (customer_services
            (mkDatabase
               (customers db ++ [inserted_customer db n f fa ni sh b a])
               (services db) (S (transactions db)))
            (inserted_customer db n f fa ni sh b a) = []) as ->;
    [|reflexivity].
  unfold customer_services. cbn [services].
  apply filter_none.
  intros s I. destruct (reachable_references db R s I) as (c & Ic & E).
  rewrite E. unfold inserted_customer. cbn [value_eqb Customer.id].
  apply Z.eqb_neq.
  pose proof (next_id_fresh _ _ (in_map Customer.id _ _ Ic)). lia.
Qed.

(** X14: the listing of a customer changes only by a service of its own.
    A request that is not a successful [create_service] for the customer
    leaves what [get_customer_services] returns for that customer as it
    was. *)
Theorem listing_changes_only_by_own_service r db cid c :
  query_customer db cid = Some c ->
  created (Customer.id c) r (fst (serve r db)) = 0%nat ->
  fst (run (get_customer_services cid) (snd (serve r db)))
  = fst (run (get_customer_services cid) db).
Proof.
  intros Q.
  pose proof (query_customer_found _ _ _ Q) as [_ L].
  pose proof (query_customer_find _ _ _ Q) as F.
  destruct r as [t n f fa ni sh bs a | cid0 | cid0 ph sn | cid0];
    unfold serve, handler.
  - rewrite run_add_customer.
    destruct (strptime bs) as [b|e]; [|reflexivity].
    destruct (age t b <? 18); [reflexivity|].
    intros _. cbn [fst snd]. rewrite !run_get_customer_services, Q.
    rewrite (query_customer_literal _ _ _ L). cbn [customers].
    rewrite find_app, F. reflexivity.
  - rewrite run_get_customer. now destruct (query_customer db cid0).
  - rewrite run_create_service.
    destruct (query_customer db cid0) as [c0|] eqn:Q0; [|reflexivity].
    destruct (Customer.services_count c0 >=? 10); [reflexivity|].
    pose proof (query_customer_found _ _ _ Q0) as [_ L0].
    cbn [fst snd created]. rewrite L0.
    replace (String.eqb service_created service_created) with true
      by reflexivity.
    rewrite andb_true_r.
    destruct (Customer.id c0 =? Customer.id c) eqn:E; [discriminate|].
    intros _. rewrite !run_get_customer_services, Q.
    rewrite (query_customer_literal _ _ _ L). cbn [customers].
    rewrite find_bump_other by (apply Z.eqb_neq in E; exact E).
    rewrite F. cbn [fst]. unfold customer_services. cbn [services].
    rewrite filter_app.
    cbn [filter inserted_service Service.customer_id value_eqb].
    rewrite E, app_nil_r. reflexivity.
  - rewrite run_get_customer_services. now destruct (query_customer db cid0).
Qed.

(** ** Answers and rows *)

Lemma answered_cons msg o os :
  answered msg (o :: os) = (answered msg [o] + answered msg os)%nat.
Proof.
  unfold answered. cbn [filter].
  destruct o as [m|e]; [destruct (String.eqb m msg)|]; reflexivity.
Qed.

Lemma answered_other msg o :
  o <> Returned msg -> answered msg [o] = 0%nat.
Proof.
  intros N. unfold answered. cbn [filter].
  destruct o as [m|e]; [|reflexivity].
  destruct (String.eqb_spec m msg) as [->|]; [now elim N | reflexivity].
Qed.

Lemma serve_rows r db :
  List.length (customers (snd (serve r db)))
  = (List.length (customers db)
     + answered customer_added [fst (serve r db)])%nat /\
  List.length (services (snd (serve r db)))
  = (List.length (services db)
     + answered service_created [fst (serve r db)])%nat /\
  transactions (snd (serve r db))
  = (transactions db + answered customer_added [fst (serve r db)]
     + answered service_created [fst (serve r db)])%nat.
Proof.
  destruct (serve_cases r db)
    as [(E & N1 & N2)
       | [(n & f & fa & ni & sh & b & a & R & _ & E)
         | (c & ph & sn & R & _ & _ & E)]]; rewrite E.
  - rewrite (answered_other _ _ N1), (answered_other _ _ N2). lia.
  - rewrite R. cbn [customers services transactions].
    rewrite length_app. cbn. lia.
  - rewrite R. cbn [customers services transactions].
    rewrite length_app, length_map. cbn. lia.
Qed.

(** X15: the tables grow with the success answers.  Over any sequence of
    requests the number of customer rows grows by the number of "Customer
    added successfully." answers, the number of service rows by the number
    of "Service created successfully." answers, and the number of committed
    transactions by both. *)
Theorem rows_count_success_answers rs : forall db,
  List.length (customers (snd (serve_list rs db)))
  = (List.length (customers db)
     + answered "Customer added successfully." (fst (serve_list rs db)))%nat /\
  List.length (services (snd (serve_list rs db)))
  = (List.length (services db)
     + answered "Service created successfully."
                (fst (serve_list rs db)))%nat /\
  transactions (snd (serve_list rs db))
  = (transactions db
     + answered "Customer added successfully." (fst (serve_list rs db))
     + answered "Service created successfully."
                (fst (serve_list rs db)))%nat.
Proof.
  induction rs as [|r rs IH]; intros db.
  - cbn. lia.
  - rewrite serve_list_cons. cbn [fst snd].
    destruct (IH (snd (serve r db))) as (C & S & T).
    destruct (serve_rows r db) as (C1 & S1 & T1).
    rewrite (answered_cons _ (fst (serve r db))).
    rewrite (answered_cons "Service created successfully."
                           (fst (serve r db))).
    fold customer_added service_created in *.
    rewrite C, S, T, C1, S1, T1. lia.
Qed.

End Store.

(** * The properties at sample inputs

    The sample runs take [exact_value] for the reading of real literals;
    no sample id is one. *)

Example ids_read_as_numbers :
  run (get_customer exact_value " 1") sample_db
  = run (get_customer exact_value "1") sample_db /\
  run (get_customer exact_value "1 ") sample_db
  = run (get_customer exact_value "1") sample_db /\
  run (get_customer exact_value "1.0") sample_db
  = run (get_customer exact_value "1") sample_db /\
  run (get_customer exact_value "1e0") sample_db
  = run (get_customer exact_value "1") sample_db /\
  run (get_customer exact_value "1.5") sample_db
  = (Returned "Customer not found.", sample_db) /\
  run (get_customer exact_value "1x") sample_db
  = (Returned "Customer not found.", sample_db).
Proof. repeat split. Qed.

Example create_service_by_real_literal :
  run (create_service exact_value "1e0" "09120000000" "sim") sample_db
  = (Returned "Service created successfully.",
     mkDatabase [Customer.with_services_count 1 sample_customer]
                [Service.mk 1 "sim" "09120000000" (Integer 1)] 2).
Proof. reflexivity. Qed.

(** C2, as stated, fails: a birth date given as "2000-1-5" is accepted, and
    the block that [get_customer] returns shows "2000-01-05" and does not
    contain the submitted text. *)
Lemma get_customer_birth_date_not_as_given :
  let add :=
    run (add_customer exact_value (mkdate 2024 3 15) "Ali" "Rezaei" "Hasan" "0012345678"
                      "4321" "2000-1-5" "Tehran") empty_db in
  fst add = Returned "Customer added successfully." /\
  exists block,
    run (get_customer exact_value "1") (snd add) = (Returned block, snd add) /\
    contains "2000-1-5" block = false /\
    contains "2000-01-05" block = true.
Proof.
  cbv zeta. split; [reflexivity|].
  eexists. split; [vm_compute; reflexivity|]. split; reflexivity.
Qed.

(** C9, as stated, fails on both kinds of input: the customer id "abc" is
    no number, and the lookup handlers return "Customer not found." for it;
    the birth date "2000-1-5" is not of the form YYYY-MM-DD, and
    [add_customer] accepts it. *)
Lemma malformed_input_returns_a_string :
  read_text "abc" = PlainText /\
  run (get_customer exact_value "abc") empty_db
  = (Returned "Customer not found.", empty_db) /\
  run (get_customer_services exact_value "abc") empty_db
  = (Returned "Customer not found.", empty_db) /\
  zero_padded "2000-1-5" = false /\
  fst (run (add_customer exact_value (mkdate 2024 3 15) "Ali" "Rezaei" "Hasan"
                         "0012345678" "4321" "2000-1-5" "Tehran") empty_db)
  = Returned "Customer added successfully.".
Proof. repeat split. Qed.

Lemma add_customer_age_gate_witness :
  age sample_today (mkdate 2006 3 16) = 17 /\
  run (add_customer exact_value sample_today "Sara" "Ahmadi" "Reza" "0076543210" "77"
                    "2006-03-16" "Shiraz") sample_db
  = (Returned "Age must be 18 or older to register as a customer.", sample_db).
Proof.
  destruct (add_customer_age_gate exact_value sample_today "Sara" "Ahmadi" "Reza"
              "0076543210" "77" "2006-03-16" "Shiraz" sample_db
              (mkdate 2006 3 16))
    as (_ & _ & _ & _ & H); [reflexivity|].
  apply H; reflexivity.
Defined.

Lemma get_customer_after_add_witness :
  exists b,
    strptime "1990-05-20" = Returned b /\ isoformat b = "1990-05-20".
Proof.
  destruct (get_customer_after_add exact_value sample_today "Ali" "Rezaei" "Hasan"
              "0012345678" "4321" "1990-05-20" "Tehran" empty_db)
    as (b & db' & P & _ & _ & Z); [reflexivity|].
  exists b. split; [exact P | apply Z; reflexivity].
Defined.

Lemma create_service_checks_in_order_witness :
  run (create_service exact_value "7" "09120000000" "sim") sample_db
  = (Returned "Customer not found.", sample_db) /\
  run (create_service exact_value " 1" "09350000000" "data")
      (snd (serve_list exact_value ten_requests sample_db))
  = (Returned "Maximum number of services reached for this customer.",
     snd (serve_list exact_value ten_requests sample_db)) /\
  exists db',
    run (create_service exact_value "1" "09120000000" "sim") sample_db
    = (Returned "Service created successfully.", db') /\
    services db' = [Service.mk 1 "sim" "09120000000" (Integer 1)] /\
    customers db' = [Customer.with_services_count 1 sample_customer] /\
    transactions db' = 2%nat.
Proof.
  assert (NoDup (map Customer.id (customers sample_db))) as N1
    by (repeat constructor; intros []).
  assert (NoDup (map Customer.id
                     (customers
                        (snd (serve_list exact_value ten_requests sample_db)))))
    as N2 by (vm_compute; repeat constructor; intros []).
  split; [|split].
  - apply (create_service_checks_in_order exact_value sample_db "7"
             "09120000000" "sim" N1).
    intros c [<- | []]. vm_compute. discriminate.
  - apply (create_service_checks_in_order exact_value
             (snd (serve_list exact_value ten_requests sample_db)) " 1"
             "09350000000" "data" N2)
      with (c := Customer.with_services_count 10 sample_customer).
    + vm_compute. left. reflexivity.
    + reflexivity.
    + vm_compute. discriminate.
  - destruct (create_service_checks_in_order exact_value sample_db "1"
                "09120000000" "sim" N1) as [_ H].
    destruct (H sample_customer) as [_ S]; [left; reflexivity | reflexivity|].
    destruct S as (db' & R & Sv & Cu & _ & T); [reflexivity|].
    exists db'. split; [exact R|]. split; [exact Sv|]. split; [exact Cu|].
    exact T.
Defined.

Lemma ten_services_then_maximum_witness :
  fst (serve_list exact_value ten_requests sample_db)
  = repeat (Returned "Service created successfully.") 10 /\
  serve exact_value (CreateService "1" "09350000000" "data")
        (snd (serve_list exact_value ten_requests sample_db))
  = (Returned "Maximum number of services reached for this customer.",
     snd (serve_list exact_value ten_requests sample_db)) /\
  List.length (services (snd (serve_list exact_value ten_requests sample_db)))
  = (List.length (services sample_db) + 10)%nat /\
  count_of (snd (serve_list exact_value ten_requests sample_db)) 1 = 10.
Proof.
  destruct (ten_services_then_maximum exact_value sample_db 1 sample_customer ten_requests
              "1" "09350000000" "data") as [H _]; try reflexivity.
  exact H.
Defined.

Lemma services_count_counts_services_witness :
  Customer.services_count (Customer.with_services_count 2 sample_customer)
  = Z.of_nat
      (created_for exact_value 1 sample_requests
                   (fst (serve_list exact_value sample_requests empty_db))).
Proof.
  destruct (services_count_counts_services exact_value sample_requests
              (Customer.with_services_count 2 sample_customer))
    as [[H _] _]; [vm_compute; left; reflexivity|].
  exact H.
Defined.

Lemma lookup_absent_customer_not_found_witness :
  run (get_customer exact_value "7") sample_db
  = (Returned "Customer not found.", sample_db) /\
  run (get_customer_services exact_value "7") sample_db
  = (Returned "Customer not found.", sample_db).
Proof.
  apply (lookup_absent_customer_not_found exact_value sample_db "7").
  intros c [<- | []]. vm_compute. discriminate.
Defined.

Lemma create_service_absent_customer_witness :
  run (create_service exact_value "7" "09120000000" "sim") sample_db
  = (Returned "Customer not found.", sample_db).
Proof.
  apply (create_service_absent_customer exact_value sample_db "7").
  intros c [<- | []]. vm_compute. discriminate.
Defined.

Lemma add_customer_duplicate_national_id_witness :
  exists db' c1,
    run (add_customer exact_value sample_today "Sara" "Ahmadi" "Reza" "0012345678" "77"
                      "1985-11-02" "Shiraz") sample_db
    = (Returned "Customer added successfully.", db') /\
    In sample_customer (customers db') /\
    In c1 (customers db') /\
    Customer.id c1 <> Customer.id sample_customer /\
    Customer.national_id c1 = "0012345678" /\
    List.length (customers db') = S (List.length (customers sample_db)).
Proof.
  apply (add_customer_duplicate_national_id exact_value sample_today "Sara" "Ahmadi"
           "Reza" "0012345678" "77" "1985-11-02" "Shiraz" sample_db
           (mkdate 1985 11 2) sample_customer).
  - left. reflexivity.
  - reflexivity.
  - reflexivity.
  - vm_compute. discriminate.
Defined.

Lemma malformed_input_outcomes_witness :
  run (add_customer exact_value sample_today "Sara" "Ahmadi" "Reza" "0076543210" "77"
                    "02/11/1985" "Shiraz") sample_db
  = (Raised ValueError, sample_db) /\
  run (get_customer exact_value "abc") sample_db
  = (Returned "Customer not found.", sample_db).
Proof.
  destruct (malformed_input_outcomes exact_value sample_today "Sara" "Ahmadi" "Reza"
              "0076543210" "77" "02/11/1985" "Shiraz" "abc" "09120000000"
              "sim" sample_db) as (H1 & _ & _ & H4).
  split; [apply H1; reflexivity | apply H4; reflexivity].
Defined.

Lemma add_customer_rejection_leaves_store_witness :
  run (add_customer exact_value sample_today "Sara" "Ahmadi" "Reza" "0076543210" "77"
                    "2010-01-01" "Shiraz") sample_db
  = (Returned "Age must be 18 or older to register as a customer.", sample_db).
Proof.
  apply (add_customer_rejection_leaves_store exact_value sample_today "Sara" "Ahmadi"
           "Reza" "0076543210" "77" "2010-01-01" "Shiraz" sample_db
           (mkdate 2010 1 1)).
  - reflexivity.
  - vm_compute. reflexivity.
Defined.

(** ** The further properties *)

Lemma sample_db_reachable : reachable exact_value sample_db.
Proof.
  exists [AddCustomer sample_today "Ali" "Rezaei" "Hasan" "0012345678" "4321"
                      "1990-05-20" "Tehran"].
  reflexivity.
Qed.

Lemma sample_served_reachable : reachable exact_value sample_served.
Proof. exists sample_requests. reflexivity. Qed.

Lemma get_customer_is_stable_witness :
  run (get_customer exact_value "1") (snd (serve_list exact_value ten_requests sample_db))
  = (fst (run (get_customer exact_value "1") sample_db),
     snd (serve_list exact_value ten_requests sample_db)).
Proof.
  apply (get_customer_is_stable exact_value ten_requests sample_db "1" sample_customer).
  reflexivity.
Defined.

Lemma maximum_is_permanent_witness :
  run (create_service exact_value "1" "09350000000" "data")
      (snd (serve_list exact_value sample_requests
                       (snd (serve_list exact_value ten_requests sample_db))))
  = (Returned "Maximum number of services reached for this customer.",
     snd (serve_list exact_value sample_requests
                     (snd (serve_list exact_value ten_requests sample_db)))).
Proof.
  apply (maximum_is_permanent exact_value sample_requests
           (snd (serve_list exact_value ten_requests sample_db)) "1"
           "09120000000" "sim").
  reflexivity.
Defined.

Lemma new_service_is_listed_last_witness :
  fst (run (get_customer_services exact_value "1")
           (snd (run (create_service exact_value "1" "09120000000" "sim") sample_db)))
  = Returned
      (nl ++ "Customer ID: 1" ++ nl ++ "Name: Ali" ++ nl ++ "Family: Rezaei"
          ++ nl ++ nl ++ "Services:" ++ nl
          ++ "Service ID: 1" ++ nl ++ "Name: sim" ++ nl
          ++ "Phone Number: 09120000000" ++ nl ++ nl).
Proof.
  rewrite (new_service_is_listed_last exact_value "1" "09120000000" "sim" sample_db
             (snd (run (create_service exact_value "1" "09120000000" "sim") sample_db))
             (nl ++ "Customer ID: 1" ++ nl ++ "Name: Ali" ++ nl
                 ++ "Family: Rezaei" ++ nl ++ nl ++ "Services:" ++ nl)
             eq_refl eq_refl).
  reflexivity.
Defined.

Lemma services_reference_customers_witness :
  exists c,
    In c (customers sample_served) /\
    Service.customer_id (Service.mk 2 "data" "09350000000" (Integer 1))
    = Integer (Customer.id c) /\
    In (Service.mk 2 "data" "09350000000" (Integer 1))
       (customer_services sample_served c).
Proof.
  apply (services_reference_customers exact_value sample_served).
  - exact sample_served_reachable.
  - right. left. reflexivity.
Defined.

Lemma keys_are_sequential_witness :
  map Customer.id (customers sample_served) = [1] /\
  map Service.id (services sample_served) = [1; 2].
Proof.
  exact (keys_are_sequential exact_value sample_served sample_served_reachable).
Defined.

Lemma customers_are_well_formed_witness :
  valid_date 1990 5 20 = true /\ 0 <= 0.
Proof.
  apply (customers_are_well_formed exact_value sample_db sample_db_reachable
           sample_customer).
  left. reflexivity.
Defined.

Lemma strptime_isoformat_witness :
  strptime (isoformat (mkdate 1990 5 20)) = Returned (mkdate 1990 5 20) /\
  zero_padded (isoformat (mkdate 1990 5 20)) = true.
Proof. apply (strptime_isoformat (mkdate 1990 5 20)). reflexivity. Defined.

Lemma acceptance_is_monotone_in_today_witness :
  fst (run (add_customer exact_value (mkdate 2030 1 1) "Sara" "Ahmadi" "Reza"
                         "0076543210" "77" "2006-03-15" "Shiraz") sample_db)
  = Returned "Customer added successfully.".
Proof.
  apply (acceptance_is_monotone_in_today exact_value sample_today (mkdate 2030 1 1));
    reflexivity.
Defined.

Lemma acceptance_is_monotone_in_birth_witness :
  fst (run (add_customer exact_value sample_today "Sara" "Ahmadi" "Reza" "0076543210"
                         "77" "1980-1-1" "Shiraz") sample_db)
  = Returned "Customer added successfully.".
Proof.
  apply (acceptance_is_monotone_in_birth exact_value sample_today "Sara" "Ahmadi" "Reza"
           "0076543210" "77" "Shiraz" "1980-1-1" "2006-03-15"
           (mkdate 1980 1 1) (mkdate 2006 3 15) sample_db);
    reflexivity.
Defined.

Lemma new_customer_has_no_services_witness :
  fst (run (get_customer_services exact_value "2")
           (snd (run (add_customer exact_value sample_today "Sara" "Ahmadi" "Reza"
                                   "0076543210" "77" "1985-11-02" "Shiraz")
                     sample_db)))
  = Returned
      (nl ++ "Customer ID: 2" ++ nl ++ "Name: Sara" ++ nl
          ++ "Family: Ahmadi" ++ nl ++ nl ++ "Services:" ++ nl).
Proof.
  exact (f_equal fst
           (new_customer_has_no_services exact_value sample_today "Sara" "Ahmadi" "Reza"
              "0076543210" "77" "1985-11-02" "Shiraz" sample_db
              (snd (run (add_customer exact_value sample_today "Sara" "Ahmadi" "Reza"
                                      "0076543210" "77" "1985-11-02" "Shiraz")
                        sample_db))
              sample_db_reachable eq_refl)).
Defined.

Lemma listing_changes_only_by_own_service_witness :
  fst (run (get_customer_services exact_value "1")
           (snd (serve exact_value (AddCustomer sample_today "Sara" "Ahmadi" "Reza"
                                    "0076543210" "77" "1985-11-02" "Shiraz")
                       sample_db)))
  = fst (run (get_customer_services exact_value "1") sample_db).
Proof.
  apply (listing_changes_only_by_own_service exact_value
           (AddCustomer sample_today "Sara" "Ahmadi" "Reza" "0076543210" "77"
                        "1985-11-02" "Shiraz")
           sample_db "1" sample_customer); reflexivity.
Defined.
